(** * Cloudera exporter, ZooKeeper module: a shallow embedding and its properties

    Two programs of the repository are embedded here.

    - [Collector] is package [collector] (collector/zookeeper_module.go, both
      revisions found in the source file): the scraper module that walks a
      table of (query, descriptor) bindings.
    - [Exporter] is package [main]: the stand-alone [ZookeeperCollector] with
      [Describe], [Collect] and [fetchMetric].

    Go values are modelled as follows: [string] is [String.string], [int] is
    [Z] (no counter below can leave the 64-bit range: each is bounded by the
    length of a slice), [float64] is Rocq's primitive binary64 float, a
    [(T, error)] result whose value is only read when [err == nil] is
    [result T], and a channel send appends to the list of what was sent. *)

From Stdlib Require Import List String Ascii ZArith Bool Lia.
From Stdlib Require Import PrimFloat DecimalString DecimalZ.
Import ListNotations.
Open Scope Z_scope.
Open Scope string_scope.
Open Scope list_scope.

(** ** Go prelude *)

Definition float64 := PrimFloat.float.

(** A Go [error] value is represented by its message. *)
Definition error := string.

Inductive result (A : Type) : Type :=
| Ok (a : A)
| Err (e : error).
Arguments Ok {A} a.
Arguments Err {A} e.

Definition is_ok {A} (r : result A) : bool :=
  match r with Ok _ => true | Err _ => false end.

(** [%d] of fmt for an [int]. *)
Definition itoa (n : Z) : string := NilZero.string_of_int (Z.to_int n).

(** [strings.ToUpper] on the ASCII letters (the metric names of this
    repository are ASCII; other bytes are left as they are). *)
Definition upper_ascii (c : ascii) : ascii :=
  if (Ascii.leb "a" c && Ascii.leb c "z")%bool
  then ascii_of_N (N_of_ascii c - 32)%N
  else c.

Fixpoint ToUpper (s : string) : string :=
  match s with
  | EmptyString => EmptyString
  | String c s' => String (upper_ascii c) (ToUpper s')
  end.

(** [strings.ReplaceAll s old new] (and [strings.Replace s old new (-1)]) for
    one-byte [old] and [new], the only use the module makes of it. *)
Fixpoint ReplaceAll (s : string) (old new : ascii) : string :=
  match s with
  | EmptyString => EmptyString
  | String c s' =>
      String (if Ascii.eqb c old then new else c) (ReplaceAll s' old new)
  end.

(** ** A state-and-panic monad

    The code writes to a channel, logs and talks to the network; a
    [Must...] constructor may panic.  [St] is the state those effects live
    in; a panic keeps the state reached so far. *)

Section Effects.
Context {St : Type}.

Inductive outcome (A : Type) : Type :=
| Done (a : A) (s : St)
| Panic (s : St).

Definition M (A : Type) : Type := St -> outcome A.

Definition ret {A} (a : A) : M A := fun s => Done A a s.

Definition bind {A B} (m : M A) (k : A -> M B) : M B :=
  fun s => match m s with
           | Done _ a s' => k a s'
           | Panic _ s' => Panic B s'
           end.

Definition panic {A} : M A := fun s => Panic A s.

(** The state a computation stops in, whether it returned or panicked. *)
Definition final {A} (o : outcome A) : St :=
  match o with Done _ _ s => s | Panic _ s => s end.
End Effects.

Arguments outcome St A : clear implicits.
Arguments M St A : clear implicits.
Arguments Done {St A} a s.
Arguments Panic {St A} s.

Notation "x <- m ;; k" := (bind m (fun x => k))
  (at level 61, m at next level, right associativity).
Notation "m ;;; k" := (bind m (fun _ => k))
  (at level 61, right associativity).

(** ** The Prometheus client library, as far as the module uses it *)

Module prometheus.

(** [prometheus.Desc]: fully qualified name, help text and the ordered
    names of the variable labels (the constant labels are [nil] at every
    call of this repository). *)
Record Desc : Type := mkDesc {
  fqName : string;
  help : string;
  variableLabels : list string
}.

Inductive ValueType := CounterValue | GaugeValue | UntypedValue.

(** A constant metric: what [NewConstMetric] stores. *)
Record Metric : Type := mkMetric {
  desc : Desc;
  valType : ValueType;
  value : float64;
  labelValues : list string
}.

Definition NewDesc (fq hlp : string) (labels : list string) : Desc :=
  mkDesc fq hlp labels.

(** [BuildFQName]: the non-empty parts joined by an underscore; an empty
    name gives the empty string. *)
Definition BuildFQName (namespace subsystem name : string) : string :=
  if String.eqb name "" then ""
  else if (negb (String.eqb namespace "") && negb (String.eqb subsystem ""))%bool
       then namespace ++ "_" ++ subsystem ++ "_" ++ name
  else if negb (String.eqb namespace "") then namespace ++ "_" ++ name
  else if negb (String.eqb subsystem "") then subsystem ++ "_" ++ name
  else name.

(** [NewConstMetric] refuses a number of label values that differs from
    the number of label names the descriptor declares.  (Descriptors are
    taken as well formed and label values as valid UTF-8 text, which is
    what the JSON decoder delivers.) *)
Definition NewConstMetric (d : Desc) (vt : ValueType) (v : float64)
           (lvs : list string) : result Metric :=
  if Nat.eqb (List.length lvs) (List.length (variableLabels d))
  then Ok (mkMetric d vt v lvs)
  else Err "inconsistent label cardinality".

(** [MustNewConstMetric] panics where [NewConstMetric] returns an error. *)
Definition MustNewConstMetric {St} (d : Desc) (vt : ValueType) (v : float64)
           (lvs : list string) : M St Metric :=
  match NewConstMetric d vt v lvs with
  | Ok m => ret m
  | Err _ => panic
  end.

(** The label-count invariant of a sample. *)
Definition label_count_ok (m : Metric) : Prop :=
  List.length (labelValues m) = List.length (variableLabels (desc m)).

End prometheus.
Import prometheus.

(** ** What a computation sends

    [emits chan P b m]: from every state, [m] only adds samples to the
    channel [chan], every added sample satisfies [P], and at most [b] are
    added; this also covers a run that panics on the way. *)

Definition emits {St A : Type} (chan : St -> list Metric) (P : Metric -> Prop)
           (b : nat) (m : M St A) : Prop :=
  forall s, exists ms,
    chan (final (m s)) = chan s ++ ms /\ Forall P ms /\ (List.length ms <= b)%nat.

(** ** Package [collector]: the ZooKeeper scraper module *)

Module Collector.

(** What the module takes from the rest of the package and does not
    define itself: the connection data, the package constant [namespace],
    the query client [make_and_parse_timeseries_query] and the accessors of
    package [json_parser].  The query client is the one place where the
    module meets the outside ([World]: the upstream manager, the network
    and the state of the context, which others may cancel at any time);
    [ctx_done] is what [ctx.Err() != nil] would observe there. *)
Record Deps : Type := mkDeps {
  World : Type;
  ctx_t : Type;
  Collector_connection_data : Type;
  Json : Type;
  namespace : string;
  ctx_done : ctx_t -> World -> bool;
  make_and_parse_timeseries_query :
    ctx_t -> Collector_connection_data -> string -> World -> result Json * World;
  Get_timeseries_num : Json -> result Z;
  Get_timeseries_query_cluster : Json -> Z -> string;
  Get_timeseries_query_entity_name : Json -> Z -> string;
  Get_timeseries_query_value : Json -> Z -> result float64
}.

(** [type relation struct { Query string; Metric_struct prometheus.Desc }] *)
Record relation : Type := mkRelation {
  Query : string;
  Metric_struct : Desc
}.

(** A line of the debug log: the format and its integer arguments. *)
Record LogEntry : Type := mkLog {
  log_fmt : string;
  log_args : list Z
}.

(** The state a scrape runs in: the outside world, the queries issued so
    far (a trace, oldest first), the samples sent on the output channel
    (oldest first) and the debug log. *)
Record St (D : Deps) : Type := mkSt {
  world : World D;
  issued : list string;
  ch : list Metric;
  logs : list LogEntry
}.
Arguments mkSt {D} _ _ _ _.
Arguments world {D} _.
Arguments issued {D} _.
Arguments ch {D} _.
Arguments logs {D} _.

Definition ZK_SCRAPER_NAME : string := "zookeeper".


(** The first and the last line [Scrape] logs. *)
Definition start_entry : LogEntry :=
  mkLog "Executing ZooKeeper Metrics Scraper" [].

Definition tally_entry (fmt : string) (success errors : Z) : LogEntry :=
  mkLog fmt [success + errors; success; errors].

Definition tally_fmt : string :=
  "ZK Scraper: %d queries run, %d successful, %d errors".

Definition tally_fmt_rev1 : string :=
  "ZK Module executed %d queries. %d success and %d errors".

Section WithDeps.
Context {D : Deps}.

(** The three ways the state changes: samples are sent, a line is logged,
    a query is made (which moves the world on). *)
Definition pushed (ms : list Metric) (s : St D) : St D :=
  mkSt (world s) (issued s) (ch s ++ ms) (logs s).

Definition logged (e : LogEntry) (s : St D) : St D :=
  mkSt (world s) (issued s) (ch s) (logs s ++ [e]).

Definition queried (q : string) (w : World D) (s : St D) : St D :=
  mkSt w (issued s ++ [q]) (ch s) (logs s).

(** [ch <- m] *)
Definition send (m : Metric) : M (St D) unit :=
  fun s => Done tt (pushed [m] s).

(** [log.Debug_msg(fmt, args...)] *)
Definition Debug_msg (fmt : string) (args : list Z) : M (St D) unit :=
  fun s => Done tt (logged (mkLog fmt args) s).

(** The call of the query client, recorded in the trace. *)
Definition query_call (ctx : ctx_t D) (config : Collector_connection_data D)
           (query : string) : M (St D) (result (Json D)) :=
  fun s =>
    let '(r, w) := make_and_parse_timeseries_query D ctx config query (world s) in
    Done r (queried query w s).

(** *** Second revision (camel-case names) *)

Definition createZKMetricStruct (metricName description : string) : Desc :=
  let description :=
    if Nat.eqb (String.length description) 0
    then ReplaceAll (ToUpper metricName) "_" " "
    else description in
  NewDesc (BuildFQName (namespace D) ZK_SCRAPER_NAME metricName)
          description
          ["cluster"; "entityName"].

(** The loop [for tsIndex := 0; tsIndex < numTsSeries; tsIndex++] of
    [createZKMetric], with [n] iterations left to run. *)
Fixpoint createZKMetric_loop (jsonParsed : Json D) (metricStruct : Desc)
         (n : nat) (tsIndex : Z) : M (St D) unit :=
  match n with
  | O => ret tt
  | S n' =>
      let clusterName := Get_timeseries_query_cluster D jsonParsed tsIndex in
      let entityName := Get_timeseries_query_entity_name D jsonParsed tsIndex in
      match Get_timeseries_query_value D jsonParsed tsIndex with
      | Err _ =>
          (* Skip if no valid data *)
          createZKMetric_loop jsonParsed metricStruct n' (tsIndex + 1)
      | Ok value =>
          m <- MustNewConstMetric metricStruct GaugeValue value
                 [clusterName; entityName] ;;
          send m ;;;
          createZKMetric_loop jsonParsed metricStruct n' (tsIndex + 1)
      end
  end.

Definition createZKMetric (ctx : ctx_t D) (config : Collector_connection_data D)
           (query : string) (metricStruct : Desc) : M (St D) bool :=
  r <- query_call ctx config query ;;
  match r with
  | Err _ => ret false
  | Ok jsonParsed =>
      match Get_timeseries_num D jsonParsed with
      | Err _ => ret false
      | Ok numTsSeries =>
          createZKMetric_loop jsonParsed metricStruct
                              (Z.to_nat numTsSeries) 0 ;;;
          ret true
      end
  end.

(** The samples the loop of [createZKMetric] sends for the series
    [tsIndex, ..., tsIndex + n - 1], as a list: one for each series whose
    value is read, none for the others. *)
Fixpoint series_samples (jsonParsed : Json D) (metricStruct : Desc)
         (n : nat) (tsIndex : Z) : list Metric :=
  match n with
  | O => []
  | S n' =>
      match Get_timeseries_query_value D jsonParsed tsIndex with
      | Err _ => series_samples jsonParsed metricStruct n' (tsIndex + 1)
      | Ok value =>
          mkMetric metricStruct GaugeValue value
            [Get_timeseries_query_cluster D jsonParsed tsIndex;
             Get_timeseries_query_entity_name D jsonParsed tsIndex]
          :: series_samples jsonParsed metricStruct n' (tsIndex + 1)
      end
  end.





(** The loop of [Scrape] over a binding table, with the two counters. *)
Fixpoint Scrape_loop (ctx : ctx_t D) (config : Collector_connection_data D)
         (rels : list relation) (successQueries errorQueries : Z)
  : M (St D) (Z * Z) :=
  match rels with
  | [] => ret (successQueries, errorQueries)
  | rel :: rest =>
      ok <- createZKMetric ctx config (Query rel) (Metric_struct rel) ;;
      if ok : bool
      then Scrape_loop ctx config rest (successQueries + 1) errorQueries
      else Scrape_loop ctx config rest successQueries (errorQueries + 1)
  end.

(** [Scrape] over a given table; the result is Go's [error], [None] for
    [nil].  [config] is the value behind the (non-nil) pointer. *)
Definition Scrape_table (rels : list relation) (ctx : ctx_t D)
           (config : Collector_connection_data D) : M (St D) (option error) :=
  Debug_msg "Executing ZooKeeper Metrics Scraper" [] ;;;
  t <- Scrape_loop ctx config rels 0 0 ;;
  let '(successQueries, errorQueries) := t in
  Debug_msg "ZK Scraper: %d queries run, %d successful, %d errors"
            [successQueries + errorQueries; successQueries; errorQueries] ;;;
  ret None.

(** The double quote, for the query constants that carry quoted words. *)
Definition dquote : string := String (ascii_of_nat 34) EmptyString.

(** Base metric queries.  Each constant of the source is one line of the
    form [SELECT LAST(m) WHERE category="SERVICE" AND serviceName="ZOOKEEPER"]. *)
Definition zk_service_query (m : string) : string :=
  "SELECT LAST(" ++ m ++ ") WHERE category=" ++ dquote ++ "SERVICE" ++ dquote
  ++ " AND serviceName=" ++ dquote ++ "ZOOKEEPER" ++ dquote.

Definition ZK_ALERTS_RATE := zk_service_query "alerts_rate".
Definition ZK_CANARY_DURATION := zk_service_query "canary_duration".
Definition ZK_CURRENT_EPOCH_RATE := zk_service_query "current_epoch_rate".
Definition ZK_CURRENT_XID := zk_service_query "current_xid".
Definition ZK_EVENTS_CRITICAL_RATE := zk_service_query "events_critical_rate".
Definition ZK_EVENTS_IMPORTANT_RATE := zk_service_query "events_important_rate".
Definition ZK_EVENTS_INFORMATIONAL_RATE := zk_service_query "events_informational_rate".
Definition ZK_HEALTH_BAD_RATE := zk_service_query "health_bad_rate".
Definition ZK_HEALTH_CONCERNING_RATE := zk_service_query "health_concerning_rate".
Definition ZK_HEALTH_DISABLED_RATE := zk_service_query "health_disabled_rate".
Definition ZK_HEALTH_GOOD_RATE := zk_service_query "health_good_rate".
Definition ZK_HEALTH_UNKNOWN_RATE := zk_service_query "health_unknown_rate".

(** Aggregate metric queries. *)
Definition ZK_ALERTS_RATE_ACROSS_CLUSTERS :=
  "SELECT LAST(alerts_rate_across_clusters)".
Definition ZK_TOTAL_ALERTS_RATE_ACROSS_CLUSTERS :=
  "SELECT LAST(total_alerts_rate_across_clusters)".

(** The descriptors (package-level variables). *)
Definition zkAlertsRate := createZKMetricStruct "alerts_rate"
  "Number of ZooKeeper alerts (events per second)".
Definition zkCanaryDuration := createZKMetricStruct "canary_duration_ms"
  "Duration of the last or currently running canary job (ms)".
Definition zkCurrentEpochRate := createZKMetricStruct "current_epoch_rate"
  "The current epoch (epoch per second)".
Definition zkCurrentXID := createZKMetricStruct "current_xid"
  "The current ZooKeeper XID".
Definition zkEventsCriticalRate := createZKMetricStruct "events_critical_rate"
  "The number of critical events (events per second)".
Definition zkEventsImportantRate := createZKMetricStruct "events_important_rate"
  "The number of important events (events per second)".
Definition zkEventsInformationalRate := createZKMetricStruct "events_informational_rate"
  "The number of informational events (events per second)".
Definition zkHealthBadRate := createZKMetricStruct "health_bad_rate"
  "Percentage of Time with Bad Health (s/s)".
Definition zkHealthConcerningRate := createZKMetricStruct "health_concerning_rate"
  "Percentage of Time with Concerning Health (s/s)".
Definition zkHealthDisabledRate := createZKMetricStruct "health_disabled_rate"
  "Percentage of Time with Disabled Health (s/s)".
Definition zkHealthGoodRate := createZKMetricStruct "health_good_rate"
  "Percentage of Time with Good Health (s/s)".
Definition zkHealthUnknownRate := createZKMetricStruct "health_unknown_rate"
  "Percentage of Time with Unknown Health (s/s)".
Definition zkAlertsRateAcrossClusters := createZKMetricStruct "alerts_rate_across_servers"
  "Alerts rate aggregated across all clusters".
Definition zkTotalAlertsRateAcrossClusters :=
  createZKMetricStruct "total_alerts_rate_across_servers"
  "Total alerts rate aggregated across all clusters".

(** The two aggregate (across-clusters) descriptors of the module. *)
Definition aggregate_descriptors : list Desc :=
  [zkAlertsRateAcrossClusters; zkTotalAlertsRateAcrossClusters].

(** The binding table. *)
Definition zkQueryVariableRelationship : list relation :=
  [ mkRelation ZK_ALERTS_RATE zkAlertsRate;
    mkRelation ZK_CANARY_DURATION zkCanaryDuration;
    mkRelation ZK_CURRENT_EPOCH_RATE zkCurrentEpochRate;
    mkRelation ZK_CURRENT_XID zkCurrentXID;
    mkRelation ZK_EVENTS_CRITICAL_RATE zkEventsCriticalRate;
    mkRelation ZK_EVENTS_IMPORTANT_RATE zkEventsImportantRate;
    mkRelation ZK_EVENTS_INFORMATIONAL_RATE zkEventsInformationalRate;
    mkRelation ZK_HEALTH_BAD_RATE zkHealthBadRate;
    mkRelation ZK_HEALTH_CONCERNING_RATE zkHealthConcerningRate;
    mkRelation ZK_HEALTH_DISABLED_RATE zkHealthDisabledRate;
    mkRelation ZK_HEALTH_GOOD_RATE zkHealthGoodRate;
    mkRelation ZK_HEALTH_UNKNOWN_RATE zkHealthUnknownRate;
    mkRelation ZK_ALERTS_RATE_ACROSS_CLUSTERS zkAlertsRateAcrossClusters;
    mkRelation ZK_TOTAL_ALERTS_RATE_ACROSS_CLUSTERS zkTotalAlertsRateAcrossClusters ].

(** [ScrapeZookeeperMetrics.Scrape]: the loop runs over the package-level
    table. *)
Definition Scrape (ctx : ctx_t D) (config : Collector_connection_data D)
  : M (St D) (option error) :=
  Scrape_table zkQueryVariableRelationship ctx config.

Definition Name : string := ZK_SCRAPER_NAME.
Definition Help : string := "Collects ZooKeeper metrics from Cloudera Manager".
End WithDeps.

(** *** First revision (snake-case names, four bindings) *)

Module Rev1.
Section WithDeps.
Context {D : Deps}.

Definition ZK_ALERTS_RATE :=
  "SELECT LAST(alerts_rate) WHERE category=SERVICE and serviceType=ZOOKEEPER".
Definition ZK_CANARY_DURATION :=
  "SELECT LAST(canary_duration) WHERE category=SERVICE and serviceType=ZOOKEEPER".
Definition ZK_CURRENT_EPOCH_RATE :=
  "SELECT LAST(current_epoch_rate) WHERE category=SERVICE and serviceType=ZOOKEEPER".
Definition ZK_CURRENT_XID :=
  "SELECT LAST(current_xid) WHERE category=SERVICE and serviceType=ZOOKEEPER".

Definition create_zk_metric_struct (metric_name description : string) : Desc :=
  let description :=
    if Nat.eqb (String.length description) 0
    then ReplaceAll (ToUpper metric_name) "_" " "
    else description in
  NewDesc (BuildFQName (namespace D) ZK_SCRAPER_NAME metric_name)
          description
          ["cluster"; "entityName"].

Definition zk_alerts_rate := create_zk_metric_struct "alerts_rate"
  "Number of ZooKeeper alerts (events per second)".
Definition zk_canary_duration := create_zk_metric_struct "canary_duration_ms"
  "Duration of the last or currently running canary job in milliseconds".
Definition zk_current_epoch_rate := create_zk_metric_struct "current_epoch_rate"
  "The current ZooKeeper epoch (epochs per second)".
Definition zk_current_xid := create_zk_metric_struct "current_xid"
  "The current ZooKeeper XID".

Definition zk_query_variable_relationship : list relation :=
  [ mkRelation ZK_ALERTS_RATE zk_alerts_rate;
    mkRelation ZK_CANARY_DURATION zk_canary_duration;
    mkRelation ZK_CURRENT_EPOCH_RATE zk_current_epoch_rate;
    mkRelation ZK_CURRENT_XID zk_current_xid ].

Fixpoint create_zk_metric_loop (json_parsed : Json D) (metric_struct : Desc)
         (n : nat) (ts_index : Z) : M (St D) unit :=
  match n with
  | O => ret tt
  | S n' =>
      let cluster_name := Get_timeseries_query_cluster D json_parsed ts_index in
      let entity_name := Get_timeseries_query_entity_name D json_parsed ts_index in
      match Get_timeseries_query_value D json_parsed ts_index with
      | Err _ => create_zk_metric_loop json_parsed metric_struct n' (ts_index + 1)
      | Ok value =>
          m <- MustNewConstMetric metric_struct GaugeValue value
                 [cluster_name; entity_name] ;;
          send m ;;;
          create_zk_metric_loop json_parsed metric_struct n' (ts_index + 1)
      end
  end.

Definition create_zk_metric (ctx : ctx_t D) (config : Collector_connection_data D)
           (query : string) (metric_struct : Desc) : M (St D) bool :=
  r <- query_call ctx config query ;;
  match r with
  | Err _ => ret false
  | Ok json_parsed =>
      match Get_timeseries_num D json_parsed with
      | Err _ => ret false
      | Ok num_ts_series =>
          create_zk_metric_loop json_parsed metric_struct
                                (Z.to_nat num_ts_series) 0 ;;;
          ret true
      end
  end.

(** [for i := 0; i < len(zk_query_variable_relationship); i++] *)
Fixpoint Scrape_loop (ctx : ctx_t D) (config : Collector_connection_data D)
         (rels : list relation) (success_queries error_queries : Z)
  : M (St D) (Z * Z) :=
  match rels with
  | [] => ret (success_queries, error_queries)
  | relationElem :: rest =>
      ok <- create_zk_metric ctx config (Query relationElem)
              (Metric_struct relationElem) ;;
      if ok : bool
      then Scrape_loop ctx config rest (success_queries + 1) error_queries
      else Scrape_loop ctx config rest success_queries (error_queries + 1)
  end.

Definition Scrape_table (rels : list relation) (ctx : ctx_t D)
           (config : Collector_connection_data D) : M (St D) (option error) :=
  Debug_msg "Executing ZooKeeper Metrics Scraper" [] ;;;
  t <- Scrape_loop ctx config rels 0 0 ;;
  let '(success_queries, error_queries) := t in
  Debug_msg "ZK Module executed %d queries. %d success and %d errors"
            [success_queries + error_queries; success_queries; error_queries] ;;;
  ret None.

Definition Scrape (ctx : ctx_t D) (config : Collector_connection_data D)
  : M (St D) (option error) :=
  Scrape_table zk_query_variable_relationship ctx config.
End WithDeps.
End Rev1.
End Collector.

(** ** Package [main]: the stand-alone ZooKeeper collector *)

Module Exporter.

(** [timeSeriesAPIResponse] and the anonymous structs inside it. *)
Record DataPoint : Type := mkPoint {
  Timestamp : string;
  Value : float64
}.

Record Metadata_t : Type := mkMetadata {
  MetricName : string
}.

Record Series : Type := mkSeries {
  Metadata : Metadata_t;
  Data : list DataPoint
}.

Record Item : Type := mkItem {
  TimeSeries : list Series
}.

Record timeSeriesAPIResponse : Type := mkResponse {
  Items : list Item
}.

(** [http.Request], as far as [fetchMetric] sets it. *)
Record Request : Type := mkRequest {
  Method : string;
  URL : string;
  BasicAuth : option (string * string)
}.

(** [http.Response]: status code and a body still to be decoded. *)
Record Response (B : Type) : Type := mkHttpResponse {
  StatusCode : Z;
  Body : B
}.
Arguments mkHttpResponse {B} _ _.
Arguments StatusCode {B} _.
Arguments Body {B} _.

Definition StatusOK : Z := 200.

(** The standard library below [fetchMetric]: whether [http.NewRequest]
    accepts a URL (and its error when it does not), [client.Do] with its
    ten-second timeout, which answers from the network [Net] and changes it,
    and the JSON decoder on a response body. *)
Record Http : Type := mkHttp {
  Net : Type;
  RawBody : Type;
  NewRequest_check : string -> option error;
  client_Do : Request -> Net -> result (Response RawBody) * Net;
  json_Decode : RawBody -> result timeSeriesAPIResponse
}.

(** [ZookeeperCollector]; the descriptor pointers are set once by
    [NewZookeeperCollector] and never written afterwards. *)
Record ZookeeperCollector : Type := mkZookeeperCollector {
  alertsRate : Desc;
  canaryDuration : Desc;
  currentEpochRate : Desc;
  currentXid : Desc;
  eventsCriticalRate : Desc;
  eventsImportantRate : Desc;
  eventsInformationalRate : Desc;
  healthBadRate : Desc;
  healthConcerningRate : Desc;
  healthDisabledRate : Desc;
  healthGoodRate : Desc;
  healthUnknownRate : Desc;
  alertsRateAcrossClusters : Desc;
  totalAlertsRateAcrossClusters : Desc;
  cmHost : string;
  cmPort : string;
  apiVersion : string;
  username : string;
  password : string
}.

Definition NewZookeeperCollector (cmHost cmPort apiVersion username password : string)
  : ZookeeperCollector :=
  {| alertsRate := NewDesc "zookeeper_alerts_rate"
       "Number of ZooKeeper alerts (events per second)" ["cluster"];
     canaryDuration := NewDesc "zookeeper_canary_duration_ms"
       "Duration of the last or currently running ZooKeeper canary job (milliseconds)"
       ["cluster"];
     currentEpochRate := NewDesc "zookeeper_current_epoch_rate"
       "The current epoch (epoch per second)" ["cluster"];
     currentXid := NewDesc "zookeeper_current_xid"
       "The current ZooKeeper XID" ["cluster"];
     eventsCriticalRate := NewDesc "zookeeper_events_critical_rate"
       "Number of critical events (events per second)" ["cluster"];
     eventsImportantRate := NewDesc "zookeeper_events_important_rate"
       "Number of important events (events per second)" ["cluster"];
     eventsInformationalRate := NewDesc "zookeeper_events_informational_rate"
       "Number of informational events (events per second)" ["cluster"];
     healthBadRate := NewDesc "zookeeper_health_bad_rate"
       "Percentage of time with Bad Health (seconds per second)" ["cluster"];
     healthConcerningRate := NewDesc "zookeeper_health_concerning_rate"
       "Percentage of time with Concerning Health (seconds per second)" ["cluster"];
     healthDisabledRate := NewDesc "zookeeper_health_disabled_rate"
       "Percentage of time with Disabled Health (seconds per second)" ["cluster"];
     healthGoodRate := NewDesc "zookeeper_health_good_rate"
       "Percentage of time with Good Health (seconds per second)" ["cluster"];
     healthUnknownRate := NewDesc "zookeeper_health_unknown_rate"
       "Percentage of time with Unknown Health (seconds per second)" ["cluster"];
     alertsRateAcrossClusters := NewDesc "zookeeper_alerts_rate_across_clusters"
       "Alerts rate aggregated across all clusters" [];
     totalAlertsRateAcrossClusters :=
       NewDesc "zookeeper_total_alerts_rate_across_clusters"
       "Total alerts rate aggregated across all clusters" [];
     cmHost := cmHost;
     cmPort := cmPort;
     apiVersion := apiVersion;
     username := username;
     password := password |}.

(** [Describe]: the descriptors sent on [ch], in the order of the sends. *)
Definition Describe (zc : ZookeeperCollector) (ch : list Desc) : list Desc :=
  ch ++ [ alertsRate zc; canaryDuration zc; currentEpochRate zc; currentXid zc;
          eventsCriticalRate zc; eventsImportantRate zc;
          eventsInformationalRate zc; healthBadRate zc;
          healthConcerningRate zc; healthDisabledRate zc; healthGoodRate zc;
          healthUnknownRate zc;
          alertsRateAcrossClusters zc; totalAlertsRateAcrossClusters zc ].

(** The two aggregate (across-clusters) descriptors of a collector. *)
Definition aggregate_descriptors (zc : ZookeeperCollector) : list Desc :=
  [alertsRateAcrossClusters zc; totalAlertsRateAcrossClusters zc].

(** The invariant of the samples of [Collect]: the label count is the
    descriptor's, the descriptor is one of the collector's own, and an
    aggregate descriptor comes with no label value. *)
Definition collect_sample_ok (zc : ZookeeperCollector) (m : Metric) : Prop :=
  label_count_ok m
  /\ In (desc m) (Describe zc [])
  /\ ((desc m = alertsRate zc \/ desc m = canaryDuration zc)
      /\ labelValues m = ["DemoCluster"]
      \/ In (desc m) (aggregate_descriptors zc) /\ labelValues m = []).

(** The request URL of [fetchMetric]: the two [fmt.Sprintf] templates, where
    [%s] inserts a string as it is and [%%5B], [%%5D] print the already
    encoded brackets. *)
Definition fetchMetric_url (zc : ZookeeperCollector) (metricName clusterName : string)
  : string :=
  if negb (String.eqb clusterName "")
  then "http://" ++ cmHost zc ++ ":" ++ cmPort zc ++ "/api/" ++ apiVersion zc
       ++ "/timeseries?query=" ++ metricName
       ++ "%5BclusterName=" ++ clusterName ++ "%5D"
  else "http://" ++ cmHost zc ++ ":" ++ cmPort zc ++ "/api/" ++ apiVersion zc
       ++ "/timeseries?query=" ++ metricName.

Definition NewRequest (E : Http) (method url : string) : result Request :=
  match NewRequest_check E url with
  | Some e => Err e
  | None => Ok (mkRequest method url None)
  end.

Definition SetBasicAuth (req : Request) (user pass : string) : Request :=
  mkRequest (Method req) (URL req) (Some (user, pass)).

(** The request [fetchMetric] sends. *)
Definition request_of (zc : ZookeeperCollector) (metricName clusterName : string)
  : Request :=
  mkRequest "GET" (fetchMetric_url zc metricName clusterName)
            (Some (username zc, password zc)).

Definition zeroPoint : DataPoint := mkPoint "" 0%float.

(** [ts.Data[dataLen-1]]; the index is in range wherever the loop reads it. *)
Definition lastPoint (ts : Series) : DataPoint :=
  let dataLen := Z.of_nat (List.length (Data ts)) in
  nth (Z.to_nat (dataLen - 1)) (Data ts) zeroPoint.

(** The body of the inner loop of [fetchMetric] on [(sum, count)]. *)
Definition series_step (acc : float64 * Z) (ts : Series) : float64 * Z :=
  let '(sum, count) := acc in
  let dataLen := Z.of_nat (List.length (Data ts)) in
  if (dataLen =? 0)%Z then (sum, count)
  else (PrimFloat.add sum (Value (lastPoint ts)), count + 1).

(** The two nested [range] loops. *)
Definition sum_last_points (tsResp : timeSeriesAPIResponse) : float64 * Z :=
  fold_left (fun acc item => fold_left series_step (TimeSeries item) acc)
            (Items tsResp) (0%float, 0).

(** The values the loops add up, as a list: the value of the last data
    point of every series that has one, in the order of the response. *)
Definition selected_values (tsResp : timeSeriesAPIResponse) : list float64 :=
  flat_map (fun item =>
              flat_map (fun ts => match Data ts with
                                  | [] => []
                                  | _ :: _ => [Value (last (Data ts) zeroPoint)]
                                  end)
                       (TimeSeries item))
           (Items tsResp).

(** A line of the standard logger: the format and the error printed. *)
Record LogEntry : Type := mkLog {
  log_fmt : string;
  log_err : error
}.

(** The state [Collect] runs in: the network, the requests sent (a trace,
    oldest first), the samples sent on the channel and the log. *)
Record St (E : Http) : Type := mkSt {
  net : Net E;
  sent : list Request;
  ch : list Metric;
  logs : list LogEntry
}.
Arguments mkSt {E} _ _ _ _.
Arguments net {E} _.
Arguments sent {E} _.
Arguments ch {E} _.
Arguments logs {E} _.

Section WithHttp.
Context {E : Http}.

Definition pushed (ms : list Metric) (s : St E) : St E :=
  mkSt (net s) (sent s) (ch s ++ ms) (logs s).

Definition logged (e : LogEntry) (s : St E) : St E :=
  mkSt (net s) (sent s) (ch s) (logs s ++ [e]).

Definition requested (req : Request) (n : Net E) (s : St E) : St E :=
  mkSt n (sent s ++ [req]) (ch s) (logs s).

Definition send (m : Metric) : M (St E) unit :=
  fun s => Done tt (pushed [m] s).

Definition log_Printf (fmt : string) (e : error) : M (St E) unit :=
  fun s => Done tt (logged (mkLog fmt e) s).

(** [client.Do(req)], recorded in the trace. *)
Definition Do (req : Request) : M (St E) (result (Response (RawBody E))) :=
  fun s =>
    let '(r, n) := client_Do E req (net s) in
    Done r (requested req n s).

(** [fetchMetric] returns Go's pair [(float64, error)]; [None] is [nil]. *)
Definition fetchMetric (zc : ZookeeperCollector) (metricName clusterName : string)
  : M (St E) (float64 * option error) :=
  let url := fetchMetric_url zc metricName clusterName in
  match NewRequest E "GET" url with
  | Err err => ret (0%float, Some err)
  | Ok req =>
      let req := SetBasicAuth req (username zc) (password zc) in
      r <- Do req ;;
      match r with
      | Err err => ret (0%float, Some err)
      | Ok resp =>
          if negb (StatusCode resp =? StatusOK)%Z
          then ret (0%float,
                    Some ("non-200 response: " ++ itoa (StatusCode resp))%string)
          else
            match json_Decode E (Body resp) with
            | Err err => ret (0%float, Some err)
            | Ok tsResp =>
                let '(sum, count) := sum_last_points tsResp in
                if (count =? 0)%Z then ret (0%float, None)
                else ret (sum, None)
            end
      end
  end.

Definition newline : string := String (ascii_of_nat 10) EmptyString.

Definition Collect (zc : ZookeeperCollector) : M (St E) unit :=
  let clusterName := "DemoCluster" in
  (* Example 1 *)
  r1 <- fetchMetric zc "alerts_rate" clusterName ;;
  (match r1 with
   | (_, Some err) => log_Printf ("Error fetching alerts_rate: %v" ++ newline)%string err
   | (alertsRateValue, None) =>
       m <- MustNewConstMetric (alertsRate zc) GaugeValue alertsRateValue
              [clusterName] ;;
       send m
   end) ;;;
  (* Example 2 *)
  r2 <- fetchMetric zc "alerts_rate_across_clusters" "" ;;
  (match r2 with
   | (_, Some err) =>
       log_Printf ("Error fetching alerts_rate_across_clusters: %v" ++ newline)%string err
   | (aggregatorValue, None) =>
       m <- MustNewConstMetric (alertsRateAcrossClusters zc) GaugeValue
              aggregatorValue [] ;;
       send m
   end) ;;;
  (* Example 3 *)
  r3 <- fetchMetric zc "total_alerts_rate_across_clusters" "" ;;
  (match r3 with
   | (_, Some err) =>
       log_Printf ("Error fetching total_alerts_rate_across_clusters: %v" ++ newline)%string err
   | (totalAggregatorValue, None) =>
       m <- MustNewConstMetric (totalAlertsRateAcrossClusters zc) GaugeValue
              totalAggregatorValue [] ;;
       send m
   end) ;;;
  (* Example 4 *)
  r4 <- fetchMetric zc "canary_duration" clusterName ;;
  match r4 with
  | (canaryValue, None) =>
      m <- MustNewConstMetric (canaryDuration zc) GaugeValue canaryValue
             [clusterName] ;;
      send m
  | (_, Some _) => ret tt
  end.

(** The state after a block of [Collect], given what its query returned:
    the error is logged (the fourth block logs nothing), or the sample is
    sent. *)
Definition block_state (d : Desc) (lvs : list string) (fmt : option string)
           (r : float64 * option error) (s : St E) : St E :=
  match r with
  | (_, Some err) =>
      match fmt with
      | Some f => logged (mkLog f err) s
      | None => s
      end
  | (v, None) => pushed [mkMetric d GaugeValue v lvs] s
  end.

(** [http.NewRequest] accepts every URL. *)
Definition accepts_all : Prop :=
  forall url, NewRequest_check E url = None.

(** Every request is answered, by a response that satisfies [P]. *)
Definition answers_all (P : Response (RawBody E) -> Prop) : Prop :=
  forall req n, exists resp n', client_Do E req n = (Ok resp, n') /\ P resp.

(** A response with status 200 whose body decodes to [tsResp] with [Q]. *)
Definition decodes_to (Q : timeSeriesAPIResponse -> Prop)
           (resp : Response (RawBody E)) : Prop :=
  StatusCode resp = StatusOK
  /\ exists tsResp, json_Decode E (Body resp) = Ok tsResp /\ Q tsResp.

(** All the series of a response, in order. *)
Definition all_series (tsResp : timeSeriesAPIResponse) : list Series :=
  flat_map TimeSeries (Items tsResp).
End WithHttp.
Arguments accepts_all E : clear implicits.
Arguments answers_all E P : clear implicits.
Arguments decodes_to E Q resp : clear implicits.
End Exporter.

(** ** The request URL as the specification words it

    The specification asks for the query expression to be URL-encoded.
    [QueryEscape] is the encoding of a query component ([url.QueryEscape]):
    letters, digits and [-_.~] stay, a space becomes [+], every other byte
    becomes [%XX] in upper-case hexadecimal. *)

Module UrlSpec.

Definition is_unreserved (c : ascii) : bool :=
  ((Ascii.leb "a" c && Ascii.leb c "z")
   || (Ascii.leb "A" c && Ascii.leb c "Z")
   || (Ascii.leb "0" c && Ascii.leb c "9")
   || Ascii.eqb c "-" || Ascii.eqb c "_" || Ascii.eqb c "." || Ascii.eqb c "~")%bool.

Definition hex_digit (n : N) : ascii :=
  if (n <? 10)%N then ascii_of_N (48 + n) else ascii_of_N (55 + n).

Fixpoint QueryEscape (s : string) : string :=
  match s with
  | EmptyString => EmptyString
  | String c s' =>
      if is_unreserved c then String c (QueryEscape s')
      else if Ascii.eqb c " " then String "+" (QueryEscape s')
      else String "%" (String (hex_digit (N_of_ascii c / 16))
                        (String (hex_digit (N_of_ascii c mod 16)) (QueryEscape s')))
  end.

(** Every byte of the string is one that the encoding leaves as it is. *)
Fixpoint all_unreserved (s : string) : bool :=
  match s with
  | EmptyString => true
  | String c s' => (is_unreserved c && all_unreserved s')%bool
  end.

(** The URL of the specification: the expression URL-encoded, and the scope
    clause [[clusterName=X]], brackets encoded, appended to it inside the
    [query] parameter when the scope is not empty. *)
Definition spec_request_url (host port apiVersion expression scope : string) : string :=
  "http://" ++ host ++ ":" ++ port ++ "/api/" ++ apiVersion
  ++ "/timeseries?query=" ++ QueryEscape expression
  ++ (if String.eqb scope "" then ""
      else "%5BclusterName=" ++ scope ++ "%5D").

End UrlSpec.

(** ** Concrete environments

    Small executable stand-ins for the parts the two packages import, used
    to run the definitions above on examples. *)

Module Demo.

(** Modelled from the spec: the connection data, section 3 of the
    specification ({host, port, apiVersion, username, password}); the
    declaration of [Collector_connection_data] is not in the source. *)
Record ConnectionConfig : Type := mkConfig {
  host : string;
  port : string;
  api : string;
  user : string;
  pass : string
}.

Definition demo_config : ConnectionConfig :=
  mkConfig "cm.example" "7180" "v19" "admin" "secret".

(** Modelled from the spec: a parsed response as the normalizer of section
    4.2 sees it, a list of series with a cluster name, an entity name and
    data-point values; package [json_parser] is not in the source. *)
Record demo_series : Type := mkDemoSeries {
  ds_cluster : string;
  ds_entity : string;
  ds_points : list float64
}.

Definition demo_json : Type := list demo_series.

Definition demo_num (j : demo_json) : result Z := Ok (Z.of_nat (List.length j)).

Definition demo_cluster (j : demo_json) (i : Z) : string :=
  match nth_error j (Z.to_nat i) with
  | Some s => ds_cluster s
  | None => ""
  end.

Definition demo_entity (j : demo_json) (i : Z) : string :=
  match nth_error j (Z.to_nat i) with
  | Some s => ds_entity s
  | None => ""
  end.

(** The last data point of the series, an error when it has none. *)
Definition demo_value (j : demo_json) (i : Z) : result float64 :=
  match nth_error j (Z.to_nat i) with
  | Some s =>
      match rev (ds_points s) with
      | v :: _ => Ok v
      | [] => Err "no data"
      end
  | None => Err "index out of range"
  end.

(** The world is a clock that counts the queries made; a context is the
    tick at which it is canceled.  This client honours cancellation. *)
Definition demo_query (upstream : string -> result demo_json)
           (ctx : nat) (_ : ConnectionConfig) (q : string) (w : nat)
  : result demo_json * nat :=
  (if Nat.leb ctx w then Err "context canceled" else upstream q, S w).


Definition demoDeps (upstream : string -> result demo_json) : Collector.Deps :=
  Collector.mkDeps nat nat ConnectionConfig demo_json "cloudera"
    (fun ctx w => Nat.leb ctx w) (demo_query upstream)
    demo_num demo_cluster demo_entity demo_value.


Definition start (D : Collector.Deps) (w : Collector.World D) : Collector.St D :=
  Collector.mkSt w [] [] [].

(** An upstream with one series and one data point for every query. *)
Definition steady (_ : string) : result demo_json :=
  Ok [mkDemoSeries "C1" "zk" [1%float; 2.5%float]].

(** An upstream where the canary query fails, one query returns two series
    and one query returns a series without data. *)
Definition patchy (q : string) : result demo_json :=
  if String.eqb q Collector.ZK_CANARY_DURATION then Err "non-200 response: 500"
  else if String.eqb q Collector.ZK_CURRENT_XID
       then Ok [mkDemoSeries "C1" "zk1" [7%float]; mkDemoSeries "C1" "zk2" [9%float]]
  else if String.eqb q Collector.ZK_HEALTH_BAD_RATE
       then Ok [mkDemoSeries "C1" "zk" []]
  else steady q.


(** The network of the stand-alone collector: a counter of requests; the
    upstream answers by URL; a body is a decoded response or garbage. *)
Definition demoHttp
           (upstream : string -> result (Exporter.Response (option Exporter.timeSeriesAPIResponse)))
  : Exporter.Http :=
  Exporter.mkHttp nat (option Exporter.timeSeriesAPIResponse)
    (fun _ => None)
    (fun req n => (upstream (Exporter.URL req), S n))
    (fun b => match b with
              | Some r => Ok r
              | None => Err "invalid character"
              end).

Definition begin (E : Exporter.Http) (n : Exporter.Net E) : Exporter.St E :=
  Exporter.mkSt n [] [] [].

Definition demo_zc : Exporter.ZookeeperCollector :=
  Exporter.NewZookeeperCollector "cm.example" "7180" "v19" "admin" "secret".

Definition one_series (d : list Exporter.DataPoint) : Exporter.timeSeriesAPIResponse :=
  Exporter.mkResponse
    [Exporter.mkItem [Exporter.mkSeries (Exporter.mkMetadata "m") d]].

(** Every query is answered 200 with one series that has no data point. *)
Definition no_data_upstream (_ : string)
  : result (Exporter.Response (option Exporter.timeSeriesAPIResponse)) :=
  Ok (Exporter.mkHttpResponse 200 (Some (one_series []))).



(** Every query is answered with status 500. *)
Definition failing_upstream (_ : string)
  : result (Exporter.Response (option Exporter.timeSeriesAPIResponse)) :=
  Ok (Exporter.mkHttpResponse 500 None).


Definition noDataHttp : Exporter.Http := demoHttp no_data_upstream.
Definition failingHttp : Exporter.Http := demoHttp failing_upstream.

Definition steadyDeps : Collector.Deps := demoDeps steady.
Definition patchyDeps : Collector.Deps := demoDeps patchy.




End Demo.

(** ** Further notions for stating what the two programs do *)

Module Trace.

(** What a block of [Collect] adds to the channel and to the log, given
    the result of its query. *)
Definition sample_if (d : Desc) (lvs : list string) (r : float64 * option error)
  : list Metric :=
  match r with
  | (v, None) => [mkMetric d GaugeValue v lvs]
  | (_, Some _) => []
  end.

Definition log_if (fmt : string) (r : float64 * option error)
  : list Exporter.LogEntry :=
  match r with
  | (_, Some err) => [Exporter.mkLog fmt err]
  | (_, None) => []
  end.

(** The three formats of the log lines of [Collect]. *)
Definition fmt_alerts_rate : string :=
  ("Error fetching alerts_rate: %v" ++ Exporter.newline)%string.

Definition fmt_across_clusters : string :=
  ("Error fetching alerts_rate_across_clusters: %v" ++ Exporter.newline)%string.

Definition fmt_total_across_clusters : string :=
  ("Error fetching total_alerts_rate_across_clusters: %v" ++ Exporter.newline)%string.

(** The four requests of [Collect], in the order it makes them. *)
Definition collect_requests (zc : Exporter.ZookeeperCollector) : list Exporter.Request :=
  [ Exporter.request_of zc "alerts_rate" "DemoCluster";
    Exporter.request_of zc "alerts_rate_across_clusters" "";
    Exporter.request_of zc "total_alerts_rate_across_clusters" "";
    Exporter.request_of zc "canary_duration" "DemoCluster" ].

(** The descriptors [Describe] declares and no block of [Collect] uses. *)
Definition unused_descriptors (zc : Exporter.ZookeeperCollector) : list Desc :=
  [ Exporter.currentEpochRate zc; Exporter.currentXid zc;
    Exporter.eventsCriticalRate zc; Exporter.eventsImportantRate zc;
    Exporter.eventsInformationalRate zc; Exporter.healthBadRate zc;
    Exporter.healthConcerningRate zc; Exporter.healthDisabledRate zc;
    Exporter.healthGoodRate zc; Exporter.healthUnknownRate zc ].

(** The series has at least one data point. *)
Definition has_data (ts : Exporter.Series) : bool :=
  negb (Nat.eqb (List.length (Exporter.Data ts)) 0).

(** Every byte of the string satisfies [p]. *)
Fixpoint string_forall (p : ascii -> bool) (s : string) : bool :=
  match s with
  | EmptyString => true
  | String c s' => (p c && string_forall p s')%bool
  end.

Definition is_ascii_byte (c : ascii) : bool := (N_of_ascii c <? 128)%N.

Definition is_lower (c : ascii) : bool := (Ascii.leb "a" c && Ascii.leb c "z")%bool.

Definition is_underscore (c : ascii) : bool := Ascii.eqb c "_".

(** What [BuildFQName] puts before a non-empty metric name of the module. *)
Definition zk_prefix (ns : string) : string :=
  if String.eqb ns "" then "zookeeper_" else (ns ++ "_zookeeper_")%string.

(** The metric names of the two binding tables of the scraper module. *)
Definition table_metric_names : list string :=
  [ "alerts_rate"; "canary_duration_ms"; "current_epoch_rate"; "current_xid";
    "events_critical_rate"; "events_important_rate"; "events_informational_rate";
    "health_bad_rate"; "health_concerning_rate"; "health_disabled_rate";
    "health_good_rate"; "health_unknown_rate";
    "alerts_rate_across_servers"; "total_alerts_rate_across_servers" ].



(** An environment whose every response has the series count [answer] and
    series that all read as 1, for running the edge cases of the count. *)
Definition countDeps (answer : result Z) : Collector.Deps :=
  Collector.mkDeps nat nat Demo.ConnectionConfig unit "cloudera"
    (fun ctx w => Nat.leb ctx w)
    (fun _ _ _ w => (Ok tt, S w))
    (fun _ => answer)
    (fun _ _ => "C1") (fun _ _ => "zk") (fun _ _ => Ok 1%float).

(** An environment whose every query fails. *)
Definition downDeps : Collector.Deps :=
  Demo.demoDeps (fun _ => Err "connection refused").

(** A descriptor with one label, which [createZKMetric] cannot serve. *)
Definition one_label_desc : Desc := NewDesc "zookeeper_odd" "odd" ["cluster"].

(** A network where every request fails in transport. *)
Definition unreachableHttp : Exporter.Http :=
  Demo.demoHttp (fun _ => Err "dial tcp: connection refused").

End Trace.

(** * Properties *)

(** ** Printing a status code *)



(** ** The monad *)

Section MonadFacts.
Context {St : Type}.

Lemma bind_done {A B} (m : M St A) (k : A -> M St B) s a s' :
  m s = Done a s' -> bind m k s = k a s'.
Proof. intros H. unfold bind. now rewrite H. Qed.

Lemma bind_panic {A B} (m : M St A) (k : A -> M St B) s s' :
  m s = Panic s' -> bind m k s = Panic s'.
Proof. intros H. unfold bind. now rewrite H. Qed.

Lemma must_new_const_metric (d : Desc) (v : float64) (lvs : list string) (s : St) :
  List.length lvs = List.length (variableLabels d) ->
  MustNewConstMetric d GaugeValue v lvs s = Done (mkMetric d GaugeValue v lvs) s.
Proof.
  intros H. unfold MustNewConstMetric, NewConstMetric.
  apply Nat.eqb_eq in H. now rewrite H.
Qed.

(** Whatever [MustNewConstMetric] returns satisfies the label-count
    invariant and carries the descriptor it was given. *)
Lemma must_new_const_metric_inv (d : Desc) (vt : ValueType) (v : float64)
      (lvs : list string) (s : St) :
  (exists m, MustNewConstMetric d vt v lvs s = Done m s
             /\ label_count_ok m /\ desc m = d /\ labelValues m = lvs
             /\ value m = v)
  \/ MustNewConstMetric d vt v lvs s = Panic s.
Proof.
  unfold MustNewConstMetric, NewConstMetric.
  destruct (Nat.eqb (List.length lvs) (List.length (variableLabels d))) eqn:H.
  - left. eexists. split; [reflexivity|].
    apply Nat.eqb_eq in H. unfold label_count_ok. simpl. auto.
  - now right.
Qed.
End MonadFacts.

(** ** Composing what computations send *)

Section EmitsFacts.
Context {St : Type} (chan : St -> list Metric).

Lemma emits_weaken {A} (P Q : Metric -> Prop) (b c : nat) (m : M St A) :
  (forall x, P x -> Q x) -> (b <= c)%nat -> emits chan P b m -> emits chan Q c m.
Proof.
  intros HPQ Hbc H s. destruct (H s) as (ms & Hch & HP & Hlen).
  exists ms. repeat split; auto.
  - eapply Forall_impl; eauto.
  - lia.
Qed.

Lemma emits_le {A} (P : Metric -> Prop) (b c : nat) (m : M St A) :
  (b <= c)%nat -> emits chan P b m -> emits chan P c m.
Proof. intros. eapply emits_weaken; eauto. Qed.

Lemma emits_ret {A} (P : Metric -> Prop) (a : A) : emits chan P 0 (ret a).
Proof.
  intros s. exists []. simpl. rewrite app_nil_r. auto.
Qed.

Lemma emits_panic {A} (P : Metric -> Prop) : emits chan P 0 (@panic St A).
Proof.
  intros s. exists []. simpl. rewrite app_nil_r. auto.
Qed.

Lemma emits_bind {A B} (P : Metric -> Prop) (b c : nat)
      (m : M St A) (k : A -> M St B) :
  emits chan P b m -> (forall a, emits chan P c (k a)) ->
  emits chan P (b + c) (bind m k).
Proof.
  intros Hm Hk s. destruct (Hm s) as (ms & Hch & HP & Hlen).
  unfold bind. destruct (m s) as [a s1|s1]; simpl in *.
  - destruct (Hk a s1) as (ms' & Hch' & HP' & Hlen').
    exists (ms ++ ms'). rewrite Hch', Hch, app_assoc. repeat split.
    + apply Forall_app; auto.
    + rewrite length_app. lia.
  - exists ms. repeat split; auto. lia.
Qed.

(** A computation that leaves the channel as it is sends nothing. *)
Lemma emits_silent {A} (P : Metric -> Prop) (m : M St A) :
  (forall s, chan (final (m s)) = chan s) -> emits chan P 0 m.
Proof.
  intros H s. exists []. rewrite H, app_nil_r. auto.
Qed.
End EmitsFacts.

(** ** Package [collector] *)

Section CollectorFacts.
Import Collector.
Context {D : Deps}.




(** With any descriptor, what the loop sends satisfies the label-count
    invariant and carries that descriptor; it sends at most one sample per
    series. *)
Lemma createZKMetric_loop_emits (j : Json D) (d : Desc) :
  forall n i,
    emits ch (fun m => label_count_ok m /\ desc m = d) n
          (createZKMetric_loop j d n i).
Proof.
  induction n as [|n IH]; intros i; simpl.
  - apply emits_ret.
  - destruct (Get_timeseries_query_value D j i) as [v|e].
    + intros s.
      destruct (must_new_const_metric_inv d GaugeValue v
                  [Get_timeseries_query_cluster D j i;
                   Get_timeseries_query_entity_name D j i] s)
        as [(m & Hm & Hok & Hd & _)|Hp].
      * erewrite bind_done by exact Hm.
        erewrite bind_done by reflexivity.
        destruct (IH (i + 1) (pushed [m] s)) as (ms & Hch & HP & Hlen).
        exists (m :: ms). rewrite Hch. simpl. rewrite <- app_assoc. simpl.
        repeat split; auto. lia.
      * erewrite bind_panic by exact Hp. exists []. simpl.
        rewrite app_nil_r. repeat split; auto. lia.
    + apply (emits_le _ _ n); [lia|]. apply IH.
Qed.

Lemma series_samples_length (j : Json D) (d : Desc) :
  forall n i, (List.length (series_samples j d n i) <= n)%nat.
Proof.
  induction n as [|n IH]; intros i; simpl; [lia|].
  destruct (Get_timeseries_query_value D j i); simpl; specialize (IH (i + 1)); lia.
Qed.



(** The loop sends nothing when no value is read, whatever the descriptor. *)
Lemma createZKMetric_loop_skip (j : Json D) (d : Desc) :
  forall n i s,
    (forall k, (k < n)%nat ->
               is_ok (Get_timeseries_query_value D j (i + Z.of_nat k)) = false) ->
    createZKMetric_loop j d n i s = Done tt s.
Proof.
  induction n as [|n IH]; intros i s H; simpl; [reflexivity|].
  pose proof (H 0%nat ltac:(lia)) as H0. simpl in H0. rewrite Z.add_0_r in H0.
  destruct (Get_timeseries_query_value D j i); [discriminate|].
  apply IH. intros k Hk.
  specialize (H (S k) ltac:(lia)).
  replace (i + 1 + Z.of_nat k) with (i + Z.of_nat (S k)) by lia. exact H.
Qed.

(** The three ways [createZKMetric] ends. *)
Lemma createZKMetric_query_fails ctx config q d (s : St D) e w :
  make_and_parse_timeseries_query D ctx config q (world s) = (Err e, w) ->
  createZKMetric ctx config q d s = Done false (queried q w s).
Proof.
  intros H. unfold createZKMetric, bind, query_call. now rewrite H.
Qed.

Lemma createZKMetric_num_fails ctx config q d (s : St D) j e w :
  make_and_parse_timeseries_query D ctx config q (world s) = (Ok j, w) ->
  Get_timeseries_num D j = Err e ->
  createZKMetric ctx config q d s = Done false (queried q w s).
Proof.
  intros H Hn. unfold createZKMetric, bind, query_call. now rewrite H, Hn.
Qed.


End CollectorFacts.

Section ScrapeFacts.
Import Collector.
Context {D : Deps}.


(** The first revision is the second one under other names: the two
    texts of the loop and of the function around it are the same term. *)
Lemma create_zk_metric_loop_same (j : Json D) (d : Desc) :
  forall n i s, Rev1.create_zk_metric_loop j d n i s = createZKMetric_loop j d n i s.
Proof. reflexivity. Qed.

Lemma create_zk_metric_same ctx config q d (s : St D) :
  Rev1.create_zk_metric ctx config q d s = createZKMetric ctx config q d s.
Proof. reflexivity. Qed.

Lemma Scrape_loop_same ctx config :
  forall rels a b (s : St D),
    Rev1.Scrape_loop ctx config rels a b s = Scrape_loop ctx config rels a b s.
Proof.
  induction rels as [|rel rest IH]; intros a b s; simpl; [reflexivity|].
  unfold bind. rewrite create_zk_metric_same.
  destruct (createZKMetric ctx config (Query rel) (Metric_struct rel) s)
    as [[|] s1|s1]; auto.
Qed.


Lemma Scrape_table_run ctx config rels (s s1 : St D) sq eq :
  Scrape_loop ctx config rels 0 0 (logged start_entry s) = Done (sq, eq) s1 ->
  Scrape_table rels ctx config s
  = Done None (logged (tally_entry tally_fmt sq eq) s1)
  /\ Rev1.Scrape_table rels ctx config s
     = Done None (logged (tally_entry tally_fmt_rev1 sq eq) s1).
Proof.
  intros H. split.
  - unfold Scrape_table. erewrite bind_done by reflexivity.
    erewrite bind_done by exact H. reflexivity.
  - unfold Rev1.Scrape_table. erewrite bind_done by reflexivity.
    erewrite bind_done by (rewrite Scrape_loop_same; exact H). reflexivity.
Qed.

End ScrapeFacts.

(** ** Package [main] *)

Section ExporterFacts.
Import Exporter.
Context {E : Http}.

Lemma lastPoint_is_last (ts : Series) :
  Data ts <> [] ->
  lastPoint ts = last (Data ts) zeroPoint
  /\ nth_error (Data ts) (List.length (Data ts) - 1) = Some (lastPoint ts).
Proof.
  intros Hne. unfold lastPoint.
  destruct (exists_last Hne) as (pre & p & Hd). rewrite Hd.
  rewrite last_last, length_app. simpl List.length.
  replace (Z.to_nat (Z.of_nat (List.length pre + 1) - 1)) with (List.length pre) by lia.
  replace (List.length pre + 1 - 1)%nat with (List.length pre) by lia.
  split.
  - rewrite app_nth2 by lia. now rewrite Nat.sub_diag.
  - rewrite app_nth2 by lia. rewrite nth_error_app2 by lia.
    now rewrite Nat.sub_diag.
Qed.

Lemma series_step_empty (acc : float64 * Z) (ts : Series) :
  Data ts = [] -> series_step acc ts = acc.
Proof.
  intros H. unfold series_step. destruct acc as [sum count]. now rewrite H.
Qed.

Lemma series_step_nonempty (sum : float64) (count : Z) (ts : Series) :
  Data ts <> [] ->
  series_step (sum, count) ts
  = (PrimFloat.add sum (Value (last (Data ts) zeroPoint)), count + 1).
Proof.
  intros Hne. unfold series_step.
  destruct (Z.eqb (Z.of_nat (List.length (Data ts))) 0) eqn:Hz.
  - apply Z.eqb_eq in Hz. destruct (Data ts); [congruence|simpl in Hz; lia].
  - now rewrite (proj1 (lastPoint_is_last ts Hne)).
Qed.

(** The inner loop adds the selected values of the series of one item. *)
Lemma inner_loop_sum (l : list Series) :
  forall sum count,
    fold_left series_step l (sum, count)
    = (fold_left PrimFloat.add
         (flat_map (fun ts => match Data ts with
                              | [] => []
                              | _ :: _ => [Value (last (Data ts) zeroPoint)]
                              end) l) sum,
       count + Z.of_nat (List.length
         (flat_map (fun ts => match Data ts with
                              | [] => []
                              | _ :: _ => [Value (last (Data ts) zeroPoint)]
                              end) l))).
Proof.
  induction l as [|ts l IH]; intros sum count.
  - simpl. f_equal. lia.
  - cbn [fold_left flat_map].
    destruct (Data ts) as [|p d] eqn:Hd.
    + rewrite series_step_empty by exact Hd. rewrite IH. reflexivity.
    + rewrite series_step_nonempty by (rewrite Hd; discriminate).
      rewrite IH, Hd. cbn [app fold_left List.length].
      f_equal. lia.
Qed.

(** [sum_last_points] adds up [selected_values] from zero, left to right,
    and counts them. *)
Lemma sum_last_points_spec (tsResp : timeSeriesAPIResponse) :
  sum_last_points tsResp
  = (fold_left PrimFloat.add (selected_values tsResp) 0%float,
     Z.of_nat (List.length (selected_values tsResp))).
Proof.
  unfold sum_last_points, selected_values.
  assert (H : forall items sum count,
             fold_left (fun acc item => fold_left series_step (TimeSeries item) acc)
                       items (sum, count)
             = (fold_left PrimFloat.add
                  (flat_map (fun item =>
                     flat_map (fun ts => match Data ts with
                                         | [] => []
                                         | _ :: _ => [Value (last (Data ts) zeroPoint)]
                                         end) (TimeSeries item)) items) sum,
                count + Z.of_nat (List.length
                  (flat_map (fun item =>
                     flat_map (fun ts => match Data ts with
                                         | [] => []
                                         | _ :: _ => [Value (last (Data ts) zeroPoint)]
                                         end) (TimeSeries item)) items)))).
  { induction items as [|it items IH]; intros sum count.
    - simpl. f_equal. lia.
    - cbn [fold_left flat_map]. rewrite inner_loop_sum, IH.
      rewrite fold_left_app, length_app. f_equal. lia. }
  rewrite H. f_equal.
Qed.

(** [fetchMetric] always returns; it never writes to the channel or the log. *)
Lemma fetchMetric_frame (zc : ZookeeperCollector) (m c : string) (s : St E) :
  exists r s', fetchMetric zc m c s = Done r s'
               /\ ch s' = ch s /\ logs s' = logs s.
Proof.
  unfold fetchMetric, NewRequest.
  destruct (NewRequest_check E (fetchMetric_url zc m c)).
  - eexists _, s. repeat split.
  - unfold bind, Do.
    destruct (client_Do E _ (net s)) as [[resp|e] n].
    + destruct (negb (StatusCode resp =? StatusOK)%Z).
      * eexists _, _. repeat split.
      * destruct (json_Decode E (Body resp)) as [tsResp|e].
        -- destruct (sum_last_points tsResp) as [sum count].
           destruct (count =? 0)%Z; eexists _, _; repeat split.
        -- eexists _, _. repeat split.
    + eexists _, _. repeat split.
Qed.

(** A status other than 200 makes [fetchMetric] return the error
    [non-200 response: <status>] after one request. *)
Lemma fetchMetric_non200 (zc : ZookeeperCollector) (m c : string) (s : St E) resp n :
  NewRequest_check E (fetchMetric_url zc m c) = None ->
  client_Do E (request_of zc m c) (net s) = (Ok resp, n) ->
  StatusCode resp <> StatusOK ->
  fetchMetric zc m c s
  = Done (0%float, Some ("non-200 response: " ++ itoa (StatusCode resp))%string)
         (requested (request_of zc m c) n s).
Proof.
  intros Hreq Hdo Hst. unfold fetchMetric, NewRequest. rewrite Hreq.
  unfold bind, Do, SetBasicAuth. simpl. fold (request_of zc m c). rewrite Hdo.
  apply Z.eqb_neq in Hst. now rewrite Hst.
Qed.

(** A decoded 200 response makes [fetchMetric] return the sum of the
    selected values (zero when there is none) and no error. *)
Lemma fetchMetric_200 (zc : ZookeeperCollector) (m c : string) (s : St E)
      resp n tsResp :
  NewRequest_check E (fetchMetric_url zc m c) = None ->
  client_Do E (request_of zc m c) (net s) = (Ok resp, n) ->
  StatusCode resp = StatusOK ->
  json_Decode E (Body resp) = Ok tsResp ->
  fetchMetric zc m c s
  = Done (fold_left PrimFloat.add (selected_values tsResp) 0%float, None)
         (requested (request_of zc m c) n s).
Proof.
  intros Hreq Hdo Hst Hdec. unfold fetchMetric, NewRequest. rewrite Hreq.
  unfold bind, Do, SetBasicAuth. simpl. fold (request_of zc m c). rewrite Hdo.
  rewrite Hst, Z.eqb_refl. simpl. rewrite Hdec, sum_last_points_spec.
  destruct (selected_values tsResp) as [|v vs]; [reflexivity|].
  destruct (Z.eqb (Z.of_nat (List.length (v :: vs))) 0) eqn:Hz.
  - apply Z.eqb_eq in Hz. simpl in Hz. lia.
  - reflexivity.
Qed.

Lemma fetchMetric_emits (P : Metric -> Prop) (zc : ZookeeperCollector) (m c : string) :
  emits (@ch E) P 0 (fetchMetric zc m c).
Proof.
  apply emits_silent. intros s.
  destruct (fetchMetric_frame zc m c s) as (r & s' & H & Hch & _).
  now rewrite H.
Qed.

(** What one block of [Collect] does with the result of its query: a
    sample for the descriptor when there is no error, nothing otherwise. *)
Lemma block_emits (d : Desc) (lvs : list string) (r : float64 * option error)
      (onerr : error -> M (St E) unit) :
  (forall e s, ch (final (onerr e s)) = ch s) ->
  emits (@ch E) (fun m => label_count_ok m /\ desc m = d /\ labelValues m = lvs) 1
        (match r with
         | (_, Some err) => onerr err
         | (v, None) => m <- MustNewConstMetric d GaugeValue v lvs ;; send m
         end).
Proof.
  intros Herr. destruct r as [v [e|]].
  - apply (emits_le _ _ 0); [lia|]. apply emits_silent. intros s. apply Herr.
  - intros s.
    destruct (must_new_const_metric_inv d GaugeValue v lvs s)
      as [(m & Hm & Hok & Hd & Hl & _)|Hp].
    + erewrite bind_done by exact Hm. exists [m]. simpl. repeat split; auto.
    + erewrite bind_panic by exact Hp. exists []. simpl. rewrite app_nil_r.
      repeat split; auto.
Qed.

Lemma log_Printf_silent (fmt : string) (e : error) (s : St E) :
  ch (final (log_Printf fmt e s)) = ch s.
Proof. reflexivity. Qed.

(** [Collect] sends at most four samples, one per query, all of which
    satisfy the invariant; this holds for every collector value and every
    behaviour of the network. *)
Lemma Collect_emits (zc : ZookeeperCollector) :
  emits (@ch E) (collect_sample_ok zc) 4 (Collect zc).
Proof.
  unfold Collect.
  assert (Hb : forall d lvs (r : float64 * option error)
                          (onerr : error -> M (St E) unit),
             (forall e s, ch (final (onerr e s)) = ch s) ->
             In d (Describe zc []) ->
             ((d = alertsRate zc \/ d = canaryDuration zc) /\ lvs = ["DemoCluster"]
              \/ In d (aggregate_descriptors zc) /\ lvs = []) ->
             emits (@ch E) (collect_sample_ok zc) 1
                   (match r with
                    | (_, Some err) => onerr err
                    | (v, None) => m <- MustNewConstMetric d GaugeValue v lvs ;; send m
                    end)).
  { intros d lvs r onerr Herr Hin Hshape.
    eapply emits_weaken; [| |apply (block_emits d lvs r onerr Herr)]; auto.
    intros m (Hok & Hd & Hl). unfold collect_sample_ok. rewrite Hd, Hl. auto. }
  assert (Hf : forall m c, emits (@ch E) (collect_sample_ok zc) 0 (fetchMetric zc m c))
    by (intros; apply fetchMetric_emits).
  apply (emits_bind (@ch E) _ 0 4); [apply Hf|intros r1].
  apply (emits_bind (@ch E) _ 1 3).
  { apply Hb; [intros; apply log_Printf_silent|simpl; auto|simpl; auto]. }
  intros _.
  apply (emits_bind (@ch E) _ 0 3); [apply Hf|intros r2].
  apply (emits_bind (@ch E) _ 1 2).
  { apply Hb; [intros; apply log_Printf_silent|simpl; auto 20|simpl; auto]. }
  intros _.
  apply (emits_bind (@ch E) _ 0 2); [apply Hf|intros r3].
  apply (emits_bind (@ch E) _ 1 1).
  { apply Hb; [intros; apply log_Printf_silent|simpl; auto 20|simpl; auto]. }
  intros _.
  apply (emits_bind (@ch E) _ 0 1); [apply Hf|intros r4].
  destruct r4 as [v [e|]].
  - apply (emits_le _ _ 0); [lia|]. apply emits_ret.
  - apply (Hb (canaryDuration zc) ["DemoCluster"] (v, None) (fun _ => ret tt));
      [reflexivity|simpl; auto|simpl; auto].
Qed.

Lemma selected_values_no_data (tsResp : timeSeriesAPIResponse) :
  Forall (fun ts => Data ts = []) (all_series tsResp) ->
  selected_values tsResp = [].
Proof.
  unfold all_series, selected_values.
  induction (Items tsResp) as [|it items IH]; intros H; simpl in *; [reflexivity|].
  apply Forall_app in H. destruct H as [Hit Hrest].
  rewrite (IH Hrest), app_nil_r.
  induction (TimeSeries it) as [|ts l IHl]; simpl; [reflexivity|].
  inversion Hit as [|? ? Hts Hl]; subst. rewrite Hts. simpl. auto.
Qed.


(** A block of [Collect] whose label values fit the descriptor. *)
Lemma block_run (d : Desc) (lvs : list string) (f : string)
      (r : float64 * option error) (s : St E) :
  List.length lvs = List.length (variableLabels d) ->
  (match r with
   | (_, Some err) => log_Printf f err
   | (v, None) => m <- MustNewConstMetric d GaugeValue v lvs ;; send m
   end) s
  = Done tt (block_state d lvs (Some f) r s).
Proof.
  intros H. destruct r as [v [err|]]; [reflexivity|].
  erewrite bind_done by (apply must_new_const_metric; exact H).
  reflexivity.
Qed.

(** [Collect] on a collector made by [NewZookeeperCollector], step by
    step: four queries, each followed by its block. *)
Lemma Collect_steps a b c d e (s s1 s2 s3 s4 : St E) r1 r2 r3 r4 :
  let zc := NewZookeeperCollector a b c d e in
  fetchMetric zc "alerts_rate" "DemoCluster" s = Done r1 s1 ->
  fetchMetric zc "alerts_rate_across_clusters" ""
    (block_state (alertsRate zc) ["DemoCluster"]
       (Some ("Error fetching alerts_rate: %v" ++ newline)%string) r1 s1)
  = Done r2 s2 ->
  fetchMetric zc "total_alerts_rate_across_clusters" ""
    (block_state (alertsRateAcrossClusters zc) []
       (Some ("Error fetching alerts_rate_across_clusters: %v" ++ newline)%string)
       r2 s2)
  = Done r3 s3 ->
  fetchMetric zc "canary_duration" "DemoCluster"
    (block_state (totalAlertsRateAcrossClusters zc) []
       (Some ("Error fetching total_alerts_rate_across_clusters: %v" ++ newline)%string)
       r3 s3)
  = Done r4 s4 ->
  Collect zc s
  = Done tt (block_state (canaryDuration zc) ["DemoCluster"] None r4 s4).
Proof.
  intros zc H1 H2 H3 H4. unfold Collect.
  erewrite bind_done by exact H1.
  erewrite bind_done by (apply block_run; reflexivity).
  erewrite bind_done by exact H2.
  erewrite bind_done by (apply block_run; reflexivity).
  erewrite bind_done by exact H3.
  erewrite bind_done by (apply block_run; reflexivity).
  erewrite bind_done by exact H4.
  destruct r4 as [v [err|]]; [reflexivity|].
  erewrite bind_done by (apply must_new_const_metric; reflexivity).
  reflexivity.
Qed.


(** If every query of [Collect] returns the value [v0] and no error, four
    samples of value [v0] are sent, one per query. *)
Lemma Collect_all_value a b c d e (v0 : float64) (s : St E) :
  let zc := NewZookeeperCollector a b c d e in
  (forall m cl (s0 : St E), exists s', fetchMetric zc m cl s0 = Done (v0, None) s'
                              /\ ch s' = ch s0) ->
  exists s', Collect zc s = Done tt s'
             /\ ch s' = ch s ++
                  [ mkMetric (alertsRate zc) GaugeValue v0 ["DemoCluster"];
                    mkMetric (alertsRateAcrossClusters zc) GaugeValue v0 [];
                    mkMetric (totalAlertsRateAcrossClusters zc) GaugeValue v0 [];
                    mkMetric (canaryDuration zc) GaugeValue v0 ["DemoCluster"] ].
Proof.
  intros zc H.
  destruct (H "alerts_rate" "DemoCluster" s) as (s1 & H1 & C1).
  destruct (H "alerts_rate_across_clusters" ""
              (block_state (alertsRate zc) ["DemoCluster"]
                 (Some ("Error fetching alerts_rate: %v" ++ newline)%string)
                 (v0, None) s1)) as (s2 & H2 & C2).
  destruct (H "total_alerts_rate_across_clusters" ""
              (block_state (alertsRateAcrossClusters zc) []
                 (Some ("Error fetching alerts_rate_across_clusters: %v" ++ newline)%string)
                 (v0, None) s2)) as (s3 & H3 & C3).
  destruct (H "canary_duration" "DemoCluster"
              (block_state (totalAlertsRateAcrossClusters zc) []
                 (Some ("Error fetching total_alerts_rate_across_clusters: %v"
                          ++ newline)%string)
                 (v0, None) s3)) as (s4 & H4 & C4).
  eexists. split; [exact (Collect_steps a b c d e s s1 s2 s3 s4 _ _ _ _ H1 H2 H3 H4)|].
  simpl in *. rewrite C4, C3, C2, C1. rewrite <- !app_assoc. reflexivity.
Qed.



(** C3, as the code has it. A series without data points is skipped: it
    changes neither the sum nor the count and raises no error.  But
    [fetchMetric] returns one value for every decoded response, so when no
    series of the answers has a data point it returns 0 with a nil error,
    and [Collect] sends a sample of value 0 for each of its four queries. *)
Theorem no_data_gives_zero_sample a b c d e (s : St E) :
  accepts_all E ->
  answers_all E (decodes_to E (fun tsResp =>
                 Forall (fun ts => Data ts = []) (all_series tsResp))) ->
  let zc := NewZookeeperCollector a b c d e in
  (forall acc ts, Data ts = [] -> series_step acc ts = acc)
  /\ (forall m cl (s0 : St E), exists s', fetchMetric zc m cl s0 = Done (0%float, None) s'
                                 /\ ch s' = ch s0)
  /\ exists s', Collect zc s = Done tt s'
                /\ ch s' = ch s ++
                     [ mkMetric (alertsRate zc) GaugeValue 0%float ["DemoCluster"];
                       mkMetric (alertsRateAcrossClusters zc) GaugeValue 0%float [];
                       mkMetric (totalAlertsRateAcrossClusters zc) GaugeValue 0%float [];
                       mkMetric (canaryDuration zc) GaugeValue 0%float ["DemoCluster"] ].
Proof.
  intros Hacc Hans zc.
  assert (Hf : forall m cl (s0 : St E), exists s', fetchMetric zc m cl s0 = Done (0%float, None) s'
                                          /\ ch s' = ch s0).
  { intros m cl s0.
    destruct (Hans (request_of zc m cl) (net s0))
      as (resp & n & Hdo & Hst & tsResp & Hdec & Hempty).
    eexists. split.
    - rewrite (fetchMetric_200 zc m cl s0 resp n tsResp (Hacc _) Hdo Hst Hdec).
      rewrite (selected_values_no_data tsResp Hempty). reflexivity.
    - reflexivity. }
  split; [intros; now apply series_step_empty|].
  split; [exact Hf|].
  apply Collect_all_value. exact Hf.
Qed.

Lemma QueryEscape_unreserved (x : string) :
  UrlSpec.all_unreserved x = true -> UrlSpec.QueryEscape x = x.
Proof.
  induction x as [|ch0 x IH]; simpl; [reflexivity|].
  intros H. apply andb_true_iff in H. destruct H as [Hc Hx].
  rewrite Hc. f_equal. auto.
Qed.

(** The request goes out with the URL of [fetchMetric_url], by GET, with
    the credentials of the collector. *)
Lemma fetchMetric_sends (zc : ZookeeperCollector) (m c : string) (s : St E) :
  NewRequest_check E (fetchMetric_url zc m c) = None ->
  sent (final (fetchMetric zc m c s)) = sent s ++ [request_of zc m c].
Proof.
  intros Hreq. unfold fetchMetric, NewRequest. rewrite Hreq.
  unfold bind, Do, SetBasicAuth. simpl. fold (request_of zc m c).
  destruct (client_Do E (request_of zc m c) (net s)) as [[resp|err] n];
    [|reflexivity].
  destruct (negb (StatusCode resp =? StatusOK)%Z); [reflexivity|].
  destruct (json_Decode E (Body resp)) as [tsResp|err]; [|reflexivity].
  destruct (sum_last_points tsResp) as [sum count].
  destruct (count =? 0)%Z; reflexivity.
Qed.

(** C8, as the code has it. The URL is the template
    [http://{host}:{port}/api/{apiVersion}/timeseries?query={expression}]
    with the expression inserted as it is: nothing is URL-encoded.  A
    non-empty scope is appended to the expression, inside the [query]
    parameter, as [%5BclusterName=X%5D] (the brackets are written already
    encoded in the template); an empty scope appends nothing.  For an
    expression made of letters, digits and [-_.~] only, as every metric
    name [Collect] passes, this is the URL of the specification.  The
    request sent carries that URL. *)
Theorem request_url_is_verbatim (zc : ZookeeperCollector)
        (metricName clusterName : string) (s : St E) :
  fetchMetric_url zc metricName clusterName
  = ("http://" ++ cmHost zc ++ ":" ++ cmPort zc ++ "/api/" ++ apiVersion zc
     ++ "/timeseries?query=" ++ metricName
     ++ (if String.eqb clusterName "" then ""
         else "%5BclusterName=" ++ clusterName ++ "%5D"))%string
  /\ (UrlSpec.all_unreserved metricName = true ->
      fetchMetric_url zc metricName clusterName
      = UrlSpec.spec_request_url (cmHost zc) (cmPort zc) (apiVersion zc)
                                 metricName clusterName)
  /\ (NewRequest_check E (fetchMetric_url zc metricName clusterName) = None ->
      sent (final (fetchMetric zc metricName clusterName s))
      = sent s ++ [mkRequest "GET" (fetchMetric_url zc metricName clusterName)
                             (Some (username zc, password zc))]).
Proof.
  assert (Hv : fetchMetric_url zc metricName clusterName
               = ("http://" ++ cmHost zc ++ ":" ++ cmPort zc ++ "/api/" ++ apiVersion zc
                  ++ "/timeseries?query=" ++ metricName
                  ++ (if String.eqb clusterName "" then ""
                      else "%5BclusterName=" ++ clusterName ++ "%5D"))%string).
  { unfold fetchMetric_url. destruct (String.eqb clusterName ""); simpl.
    - repeat (f_equal; try reflexivity).
      clear. induction metricName as [|x m IH]; simpl; [reflexivity|now f_equal].
    - reflexivity. }
  split; [exact Hv|]. split.
  - intros Hu. rewrite Hv. unfold UrlSpec.spec_request_url.
    now rewrite (QueryEscape_unreserved metricName Hu).
  - apply fetchMetric_sends.
Qed.

(** C9. [Describe] sends, after whatever the channel already holds, the
    same fourteen descriptors on every call; for a collector made by
    [NewZookeeperCollector] they do not depend on the connection data and
    their names are pairwise distinct.  Every sample [Collect] sends, under
    any behaviour of the network, carries one of these descriptors. *)
Theorem describe_stable_collect_declared (zc : ZookeeperCollector)
        (sent_before : list Desc) (a b c d e a' b' c' d' e' : string) (s : St E) :
  Describe zc sent_before = sent_before ++ Describe zc []
  /\ Describe (NewZookeeperCollector a b c d e) []
     = Describe (NewZookeeperCollector a' b' c' d' e') []
  /\ List.length (Describe (NewZookeeperCollector a b c d e) []) = 14%nat
  /\ NoDup (map fqName (Describe (NewZookeeperCollector a b c d e) []))
  /\ exists ms, ch (final (Collect zc s)) = ch s ++ ms
                /\ Forall (fun m => In (desc m) (Describe zc [])) ms.
Proof.
  split; [reflexivity|]. split; [reflexivity|]. split; [reflexivity|]. split.
  - simpl.
    repeat (constructor;
            [simpl; intros H;
             repeat (destruct H as [H|H]; [discriminate H|]); exact H|]).
    constructor.
  - destruct (Collect_emits zc s) as (ms & Hch & HP & _).
    exists ms. split; [exact Hch|].
    eapply Forall_impl; [|exact HP]. intros m (_ & Hin & _). exact Hin.
Qed.
End ExporterFacts.

(** ** Failure, success and cancellation of a binding *)

Section BindingFacts.
Import Collector.
Context {D : Deps}.

(** A binding whose query fails is counted as an error, and the loop goes
    on with the next one. *)
Lemma Scrape_loop_failed_binding ctx config rel rest a b (s : St D) e w :
  make_and_parse_timeseries_query D ctx config (Query rel) (world s) = (Err e, w) ->
  Scrape_loop ctx config (rel :: rest) a b s
  = Scrape_loop ctx config rest a (b + 1) (queried (Query rel) w s).
Proof.
  intros H. simpl.
  erewrite bind_done by (eapply createZKMetric_query_fails; exact H).
  reflexivity.
Qed.



End BindingFacts.

(** ** What the two programs send *)

Section SampleFacts.
Context {D : Collector.Deps} {E : Exporter.Http}.


(** Whatever [createZKMetric] sends satisfies the label-count invariant and
    carries the descriptor of the binding, also when it panics on the way. *)
Lemma createZKMetric_sends_ok ctx config q d (s : Collector.St D) :
  exists ms,
    Collector.ch (final (Collector.createZKMetric ctx config q d s))
    = Collector.ch s ++ ms
    /\ Forall (fun m => label_count_ok m /\ desc m = d) ms.
Proof.
  unfold Collector.createZKMetric, Collector.query_call.
  unfold bind at 1.
  destruct (Collector.make_and_parse_timeseries_query D ctx config q
              (Collector.world s)) as [[j|e] w].
  - destruct (Collector.Get_timeseries_num D j) as [n|e].
    + destruct (createZKMetric_loop_emits j d (Z.to_nat n) 0
                  (Collector.queried q w s)) as (ms & Hch & HP & _).
      exists ms. split; [|exact HP].
      unfold bind.
      destruct (Collector.createZKMetric_loop j d (Z.to_nat n) 0
                  (Collector.queried q w s)); exact Hch.
    + exists []. simpl. rewrite app_nil_r. auto.
  - exists []. simpl. rewrite app_nil_r. auto.
Qed.

Lemma Scrape_loop_sends_ok ctx config :
  forall rels a b (s : Collector.St D),
  exists ms,
    Collector.ch (final (Collector.Scrape_loop ctx config rels a b s))
    = Collector.ch s ++ ms
    /\ Forall (fun m => label_count_ok m
                        /\ In (desc m) (map Collector.Metric_struct rels)) ms.
Proof.
  induction rels as [|rel rest IH]; intros a b s.
  - exists []. simpl. rewrite app_nil_r. auto.
  - destruct (createZKMetric_sends_ok ctx config (Collector.Query rel)
                (Collector.Metric_struct rel) s) as (ms & Hch & HP).
    simpl. unfold bind.
    destruct (Collector.createZKMetric ctx config (Collector.Query rel)
                (Collector.Metric_struct rel) s) as [ok s1|s1]; simpl in Hch.
    + assert (Hrest : exists ms',
                 Collector.ch (final (if ok
                     then Collector.Scrape_loop ctx config rest (a + 1) b s1
                     else Collector.Scrape_loop ctx config rest a (b + 1) s1))
                 = Collector.ch s1 ++ ms'
                 /\ Forall (fun m => label_count_ok m
                              /\ In (desc m) (map Collector.Metric_struct rest)) ms')
        by (destruct ok; apply IH).
      destruct Hrest as (ms' & Hch' & HP').
      exists (ms ++ ms'). split.
      * destruct ok; rewrite Hch', Hch, app_assoc; reflexivity.
      * apply Forall_app. split.
        -- eapply Forall_impl; [|exact HP]. intros m (Hok & Hd). simpl. auto.
        -- eapply Forall_impl; [|exact HP']. intros m (Hok & Hin). simpl. auto.
    + exists ms. split; [exact Hch|].
      eapply Forall_impl; [|exact HP]. intros m (Hok & Hd). simpl. auto.
Qed.

Lemma Scrape_table_sends_ok ctx config rels (s : Collector.St D) :
  exists ms,
    Collector.ch (final (Collector.Scrape_table rels ctx config s))
    = Collector.ch s ++ ms
    /\ Forall (fun m => label_count_ok m
                        /\ In (desc m) (map Collector.Metric_struct rels)) ms.
Proof.
  destruct (Scrape_loop_sends_ok ctx config rels 0 0
              (Collector.logged Collector.start_entry s)) as (ms & Hch & HP).
  exists ms. split; [|exact HP].
  unfold Collector.Scrape_table.
  erewrite bind_done by reflexivity. unfold bind.
  change (Collector.mkLog "Executing ZooKeeper Metrics Scraper" [])
    with Collector.start_entry.
  destruct (Collector.Scrape_loop ctx config rels 0 0
              (Collector.logged Collector.start_entry s)) as [[sq eq] s1|s1];
    exact Hch.
Qed.



End SampleFacts.

(** ** The theorems on concrete runs *)


(** The same run, evaluated: fourteen queries, thirteen successes, one
    error, thirteen samples (two for the query with two series, none for
    the query whose series has no data). *)
Example Scrape_patchy_run :
  exists s1,
    Collector.Scrape (D := Demo.patchyDeps) 100%nat Demo.demo_config
      (Demo.start Demo.patchyDeps 0%nat) = Done None s1
    /\ last (Collector.logs s1) Collector.start_entry
       = Collector.tally_entry Collector.tally_fmt 13 1
    /\ List.length (Collector.ch s1) = 13%nat
    /\ List.length (Collector.issued s1) = 14%nat.
Proof.
  eexists. split; [vm_compute; reflexivity|].
  repeat split; reflexivity.
Qed.


Lemma no_data_gives_zero_sample_witness :
  Exporter.accepts_all Demo.noDataHttp
  /\ exists s',
       Exporter.Collect (E := Demo.noDataHttp) Demo.demo_zc
         (Demo.begin Demo.noDataHttp 0%nat) = Done tt s'
       /\ map value (Exporter.ch s') = [0%float; 0%float; 0%float; 0%float].
Proof.
  assert (Hacc : Exporter.accepts_all Demo.noDataHttp) by (intros url; reflexivity).
  split; [exact Hacc|].
  destruct (no_data_gives_zero_sample (E := Demo.noDataHttp)
              "cm.example" "7180" "v19" "admin" "secret"
              (Demo.begin Demo.noDataHttp 0%nat) Hacc) as (_ & _ & s' & Hc & Hch).
  - intros req n. eexists _, _. split; [reflexivity|].
    split; [reflexivity|]. eexists. split; [reflexivity|].
    repeat constructor.
  - exists s'. split; [exact Hc|]. rewrite Hch. reflexivity.
Defined.




Lemma request_url_is_verbatim_witness :
  UrlSpec.all_unreserved "alerts_rate" = true
  /\ Exporter.fetchMetric_url Demo.demo_zc "alerts_rate" "DemoCluster"
     = "http://cm.example:7180/api/v19/timeseries?query=alerts_rate%5BclusterName=DemoCluster%5D"
  /\ Exporter.fetchMetric_url Demo.demo_zc "alerts_rate" "DemoCluster"
     = UrlSpec.spec_request_url "cm.example" "7180" "v19" "alerts_rate" "DemoCluster".
Proof.
  destruct (request_url_is_verbatim (E := Demo.noDataHttp) Demo.demo_zc
              "alerts_rate" "DemoCluster" (Demo.begin Demo.noDataHttp 0%nat))
    as (Hv & Hs & _).
  split; [reflexivity|]. split.
  - rewrite Hv. reflexivity.
  - apply Hs. reflexivity.
Defined.


(** ** Where the code departs from the specification *)

(** C3 fails on the code: every series of every answer has an empty list
    of data points, and yet [Collect] sends four samples, of value 0. *)
Lemma no_data_counterexample :
  Forall (fun ts => Exporter.Data ts = [])
         (Exporter.all_series (Demo.one_series []))
  /\ map value
       (Exporter.ch (final (Exporter.Collect (E := Demo.noDataHttp) Demo.demo_zc
                              (Demo.begin Demo.noDataHttp 0%nat))))
     = [0%float; 0%float; 0%float; 0%float]
  /\ Exporter.ch (final (Exporter.Collect (E := Demo.noDataHttp) Demo.demo_zc
                           (Demo.begin Demo.noDataHttp 0%nat))) <> [].
Proof.
  split; [repeat constructor|]. split; [reflexivity|].
  vm_compute. discriminate.
Qed.




(** C8 fails on the code in its first half: an expression with a space
    and parentheses goes into the URL as it is, where the specification asks
    for its URL-encoded form. *)
Lemma url_encoding_counterexample :
  Exporter.fetchMetric_url Demo.demo_zc Collector.ZK_ALERTS_RATE_ACROSS_CLUSTERS ""
  = "http://cm.example:7180/api/v19/timeseries?query=SELECT LAST(alerts_rate_across_clusters)"
  /\ UrlSpec.spec_request_url "cm.example" "7180" "v19"
       Collector.ZK_ALERTS_RATE_ACROSS_CLUSTERS ""
     = "http://cm.example:7180/api/v19/timeseries?query=SELECT+LAST%28alerts_rate_across_clusters%29"
  /\ Exporter.fetchMetric_url Demo.demo_zc
       Collector.ZK_ALERTS_RATE_ACROSS_CLUSTERS ""
     <> UrlSpec.spec_request_url "cm.example" "7180" "v19"
          Collector.ZK_ALERTS_RATE_ACROSS_CLUSTERS "".
Proof.
  split; [reflexivity|]. split; [reflexivity|].
  vm_compute. discriminate.
Qed.

(** * Further properties of the code *)

(** ** Descriptor names and help texts of the scraper module *)

Section NamingFacts.
Context {D : Collector.Deps}.

Lemma string_app_assoc (a b c : string) :
  ((a ++ b) ++ c)%string = (a ++ (b ++ c))%string.
Proof. induction a as [|x a IH]; simpl; [reflexivity|now rewrite IH]. Qed.

Lemma string_app_inj_l (p a b : string) :
  (p ++ a)%string = (p ++ b)%string -> a = b.
Proof.
  induction p as [|x p IH]; simpl; intros H; [exact H|].
  injection H as H. auto.
Qed.

Lemma NoDup_map_injective {A B} (f : A -> B) (l : list A) :
  (forall x y, f x = f y -> x = y) -> NoDup l -> NoDup (map f l).
Proof.
  intros Hinj. induction 1 as [|x l Hx Hl IH]; simpl; constructor; auto.
  intros Hin. apply in_map_iff in Hin. destruct Hin as (y & Hy & Hiny).
  apply Hinj in Hy. now subst y.
Qed.

(** The fully qualified name of a descriptor with a non-empty metric name. *)
Lemma fqName_createZKMetricStruct (name description : string) :
  name <> "" ->
  fqName (Collector.createZKMetricStruct (D := D) name description)
  = (Trace.zk_prefix (Collector.namespace D) ++ name)%string.
Proof.
  intros Hn. unfold Collector.createZKMetricStruct, NewDesc, BuildFQName,
    Trace.zk_prefix, Collector.ZK_SCRAPER_NAME. simpl fqName.
  destruct (String.eqb name "") eqn:He; [apply String.eqb_eq in He; congruence|].
  destruct (String.eqb (Collector.namespace D) ""); simpl.
  - reflexivity.
  - now rewrite string_app_assoc.
Qed.

(** X1. Two descriptors made with different non-empty metric names have
    different fully qualified names, whatever the namespace; the labels
    are always [cluster] and [entityName]; and an empty metric name gives
    the empty fully qualified name. *)
Theorem descriptor_name_determines_metric (n1 d1 n2 d2 : string) :
  n1 <> "" -> n2 <> "" ->
  (fqName (Collector.createZKMetricStruct (D := D) n1 d1)
   = fqName (Collector.createZKMetricStruct (D := D) n2 d2) -> n1 = n2)
  /\ variableLabels (Collector.createZKMetricStruct (D := D) n1 d1)
     = ["cluster"; "entityName"]
  /\ fqName (Collector.createZKMetricStruct (D := D) "" d1) = "".
Proof.
  intros H1 H2. split; [|split; reflexivity].
  rewrite !fqName_createZKMetricStruct by assumption.
  apply string_app_inj_l.
Qed.

Lemma table_fqNames :
  map (fun rel => fqName (Collector.Metric_struct rel))
      (@Collector.zkQueryVariableRelationship D)
  = map (fun n => (Trace.zk_prefix (Collector.namespace D) ++ n)%string)
        Trace.table_metric_names.
Proof.
  unfold Collector.zkQueryVariableRelationship, Trace.table_metric_names.
  cbn [map Collector.Metric_struct].
  unfold Collector.zkAlertsRate, Collector.zkCanaryDuration,
    Collector.zkCurrentEpochRate, Collector.zkCurrentXID,
    Collector.zkEventsCriticalRate, Collector.zkEventsImportantRate,
    Collector.zkEventsInformationalRate, Collector.zkHealthBadRate,
    Collector.zkHealthConcerningRate, Collector.zkHealthDisabledRate,
    Collector.zkHealthGoodRate, Collector.zkHealthUnknownRate,
    Collector.zkAlertsRateAcrossClusters,
    Collector.zkTotalAlertsRateAcrossClusters.
  rewrite !fqName_createZKMetricStruct by discriminate. reflexivity.
Qed.

(** X2. In both binding tables of the module the descriptors have pairwise
    distinct fully qualified names and the queries are pairwise distinct,
    for every namespace; the names are the metric names behind the prefix
    of the namespace and the scraper name. *)
Theorem binding_tables_have_distinct_names :
  map (fun rel => fqName (Collector.Metric_struct rel))
      (@Collector.zkQueryVariableRelationship D)
  = map (fun n => (Trace.zk_prefix (Collector.namespace D) ++ n)%string)
        Trace.table_metric_names
  /\ NoDup (map (fun rel => fqName (Collector.Metric_struct rel))
                (@Collector.zkQueryVariableRelationship D))
  /\ NoDup (map Collector.Query (@Collector.zkQueryVariableRelationship D))
  /\ map (fun rel => fqName (Collector.Metric_struct rel))
         (@Collector.Rev1.zk_query_variable_relationship D)
     = firstn 4 (map (fun rel => fqName (Collector.Metric_struct rel))
                     (@Collector.zkQueryVariableRelationship D))
  /\ NoDup (map Collector.Query (@Collector.Rev1.zk_query_variable_relationship D)).
Proof.
  pose proof table_fqNames as Hnames.
  assert (Hlit : NoDup Trace.table_metric_names).
  { unfold Trace.table_metric_names.
    repeat (constructor;
            [simpl; intros H;
             repeat (destruct H as [H|H]; [discriminate H|]); exact H|]).
    constructor. }
  split; [exact Hnames|]. split; [|split; [|split]].
  - rewrite Hnames. apply NoDup_map_injective; [|exact Hlit].
    intros x y. apply string_app_inj_l.
  - vm_compute.
    repeat (constructor;
            [simpl; intros H;
             repeat (destruct H as [H|H]; [discriminate H|]); exact H|]).
    constructor.
  - rewrite Hnames.
    unfold Collector.Rev1.zk_query_variable_relationship, Trace.table_metric_names.
    cbn [map Collector.Metric_struct firstn].
    unfold Collector.Rev1.zk_alerts_rate, Collector.Rev1.zk_canary_duration,
      Collector.Rev1.zk_current_epoch_rate, Collector.Rev1.zk_current_xid.
    change (@Collector.Rev1.create_zk_metric_struct D)
      with (@Collector.createZKMetricStruct D).
    rewrite !fqName_createZKMetricStruct by discriminate. reflexivity.
  - vm_compute.
    repeat (constructor;
            [simpl; intros H;
             repeat (destruct H as [H|H]; [discriminate H|]); exact H|]).
    constructor.
Qed.

Lemma auto_description_char (c : ascii) :
  let c' := if Ascii.eqb (upper_ascii c) "_" then " "%char else upper_ascii c in
  negb (Trace.is_lower c') = true /\ negb (Trace.is_underscore c') = true.
Proof.
  destruct c as [[] [] [] [] [] [] [] []]; split; reflexivity.
Qed.

(** X3. The help text of a descriptor is the description given, or, when
    that is empty, the metric name in upper case with every underscore
    turned into a space: as long as the name, with no lower-case letter and
    no underscore left.  (For a name of ASCII bytes, where
    [strings.ToUpper] works byte by byte.) *)
Theorem help_text_falls_back_to_name (name : string) :
  Trace.string_forall Trace.is_ascii_byte name = true ->
  help (Collector.createZKMetricStruct (D := D) name "")
  = ReplaceAll (ToUpper name) "_" " "
  /\ String.length (help (Collector.createZKMetricStruct (D := D) name ""))
     = String.length name
  /\ Trace.string_forall (fun c => negb (Trace.is_lower c))
       (help (Collector.createZKMetricStruct (D := D) name "")) = true
  /\ Trace.string_forall (fun c => negb (Trace.is_underscore c))
       (help (Collector.createZKMetricStruct (D := D) name "")) = true
  /\ forall description,
       description <> "" ->
       help (Collector.createZKMetricStruct (D := D) name description) = description.
Proof.
  intros _. split; [reflexivity|].
  change (help (Collector.createZKMetricStruct (D := D) name ""))
    with (ReplaceAll (ToUpper name) "_" " ").
  split; [|split; [|split]].
  - induction name as [|c name IH]; simpl; [reflexivity|now rewrite IH].
  - induction name as [|c name IH]; simpl; [reflexivity|].
    rewrite IH, andb_true_r. apply (proj1 (auto_description_char c)).
  - induction name as [|c name IH]; simpl; [reflexivity|].
    rewrite IH, andb_true_r. apply (proj2 (auto_description_char c)).
  - intros description Hd. unfold Collector.createZKMetricStruct, NewDesc.
    simpl help. destruct description; [congruence|reflexivity].
Qed.
End NamingFacts.

Lemma descriptor_name_determines_metric_witness :
  "alerts_rate" <> "" /\ "current_xid" <> ""
  /\ fqName (Collector.createZKMetricStruct (D := Demo.steadyDeps) "alerts_rate" "")
     = "cloudera_zookeeper_alerts_rate"
  /\ fqName (Collector.createZKMetricStruct (D := Demo.steadyDeps) "alerts_rate" "")
     <> fqName (Collector.createZKMetricStruct (D := Demo.steadyDeps) "current_xid" "").
Proof.
  destruct (descriptor_name_determines_metric (D := Demo.steadyDeps)
              "alerts_rate" "" "current_xid" ""
              ltac:(discriminate) ltac:(discriminate)) as (Hinj & _ & _).
  split; [discriminate|]. split; [discriminate|]. split; [reflexivity|].
  intros H. apply Hinj in H. discriminate H.
Defined.

Lemma help_text_falls_back_to_name_witness :
  Trace.string_forall Trace.is_ascii_byte "alerts_rate" = true
  /\ help (Collector.createZKMetricStruct (D := Demo.steadyDeps) "alerts_rate" "")
     = "ALERTS RATE".
Proof.
  destruct (help_text_falls_back_to_name (D := Demo.steadyDeps) "alerts_rate"
              eq_refl) as (Hh & _).
  split; [reflexivity|]. rewrite Hh. reflexivity.
Defined.

(** ** One binding of the scraper module, at its edges *)

Section BindingEdges.
Import Collector.
Context {D : Deps}.

Lemma must_new_const_metric_panics {St} (d : Desc) (vt : ValueType) (v : float64)
      (lvs : list string) (s : St) :
  List.length lvs <> List.length (variableLabels d) ->
  MustNewConstMetric d vt v lvs s = Panic s.
Proof.
  intros H. unfold MustNewConstMetric, NewConstMetric.
  apply Nat.eqb_neq in H. now rewrite H.
Qed.

(** The loop over the series makes no query and logs nothing, also when it
    panics. *)
Lemma createZKMetric_loop_frame (j : Json D) (d : Desc) :
  forall n i (s : St D),
    issued (final (createZKMetric_loop j d n i s)) = issued s
    /\ logs (final (createZKMetric_loop j d n i s)) = logs s
    /\ world (final (createZKMetric_loop j d n i s)) = world s.
Proof.
  induction n as [|n IH]; intros i s; [simpl; auto|].
  destruct (Get_timeseries_query_value D j i) as [v|e] eqn:Hv.
  - destruct (must_new_const_metric_inv d GaugeValue v
                [Get_timeseries_query_cluster D j i;
                 Get_timeseries_query_entity_name D j i] s)
      as [(m & Hm & _)|Hp].
    + assert (Heq : createZKMetric_loop j d (S n) i s
                    = createZKMetric_loop j d n (i + 1) (pushed [m] s)).
      { simpl. rewrite Hv. erewrite bind_done by exact Hm.
        erewrite bind_done by reflexivity. reflexivity. }
      rewrite Heq. apply (IH (i + 1) (pushed [m] s)).
    + assert (Heq : createZKMetric_loop j d (S n) i s = Panic s).
      { simpl. rewrite Hv. erewrite bind_panic by exact Hp. reflexivity. }
      rewrite Heq. simpl. auto.
  - assert (Heq : createZKMetric_loop j d (S n) i s
                  = createZKMetric_loop j d n (i + 1) s).
    { simpl. now rewrite Hv. }
    rewrite Heq. apply IH.
Qed.

(** X4. [createZKMetric] makes exactly one query, the one of its binding,
    and writes nothing to the log, whatever the response, whatever the
    descriptor, and also when it panics; the world it leaves is the one the
    query client left. *)
Theorem createZKMetric_makes_one_query ctx config q d (s : St D) :
  issued (final (createZKMetric ctx config q d s)) = issued s ++ [q]
  /\ logs (final (createZKMetric ctx config q d s)) = logs s
  /\ world (final (createZKMetric ctx config q d s))
     = snd (make_and_parse_timeseries_query D ctx config q (world s)).
Proof.
  destruct (make_and_parse_timeseries_query D ctx config q (world s))
    as [[j|e] w] eqn:Hq.
  - destruct (Get_timeseries_num D j) as [n|e] eqn:Hn.
    + assert (Heq : createZKMetric ctx config q d s
                    = bind (createZKMetric_loop j d (Z.to_nat n) 0)
                           (fun _ => ret true) (queried q w s)).
      { unfold createZKMetric, query_call. unfold bind at 1.
        now rewrite Hq, Hn. }
      rewrite Heq. unfold bind.
      generalize (createZKMetric_loop_frame j d (Z.to_nat n) 0 (queried q w s)).
      destruct (createZKMetric_loop j d (Z.to_nat n) 0 (queried q w s));
        simpl; auto.
    + rewrite (createZKMetric_num_fails ctx config q d s j e w Hq Hn).
      simpl. auto.
  - rewrite (createZKMetric_query_fails ctx config q d s e w Hq). simpl. auto.
Qed.

(** What the loop sends comes from the series it walks. *)
Lemma createZKMetric_loop_sound (j : Json D) (d : Desc) :
  forall n i (s : St D),
  exists ms,
    ch (final (createZKMetric_loop j d n i s)) = ch s ++ ms
    /\ Forall (fun m =>
         desc m = d /\ valType m = GaugeValue
         /\ exists k, i <= k < i + Z.of_nat n
              /\ Get_timeseries_query_value D j k = Ok (value m)
              /\ labelValues m = [Get_timeseries_query_cluster D j k;
                                  Get_timeseries_query_entity_name D j k]) ms.
Proof.
  induction n as [|n IH]; intros i s.
  - exists []. simpl. rewrite app_nil_r. auto.
  - simpl createZKMetric_loop.
    destruct (Get_timeseries_query_value D j i) as [v|e] eqn:Hv.
    + unfold bind at 1. unfold MustNewConstMetric, NewConstMetric.
      destruct (Nat.eqb _ _).
      * simpl. erewrite bind_done by reflexivity.
        destruct (IH (i + 1) (pushed [mkMetric d GaugeValue v
                    [Get_timeseries_query_cluster D j i;
                     Get_timeseries_query_entity_name D j i]] s))
          as (ms & Hch & HP).
        eexists (_ :: ms). split.
        -- rewrite Hch. simpl. rewrite <- app_assoc. reflexivity.
        -- constructor.
           ++ simpl. repeat split. exists i. repeat split; auto; lia.
           ++ eapply Forall_impl; [|exact HP].
              intros m (Hd & Hg & k & Hk & Hval & Hl).
              repeat split; auto. exists k. repeat split; auto; lia.
      * exists []. simpl. rewrite app_nil_r. auto.
    + destruct (IH (i + 1) s) as (ms & Hch & HP).
      exists ms. split; [exact Hch|].
      eapply Forall_impl; [|exact HP].
      intros m (Hd & Hg & k & Hk & Hval & Hl).
      repeat split; auto. exists k. repeat split; auto; lia.
Qed.

(** X5. [createZKMetric] invents nothing: every sample it sends, also on
    a run that panics, is a gauge for the descriptor of the binding, whose
    value and two label values are the value, cluster name and entity name
    of one series of the response, at an index from 0 up to the series
    count. *)
Theorem samples_come_from_series ctx config q d (s : St D) :
  exists ms,
    ch (final (createZKMetric ctx config q d s)) = ch s ++ ms
    /\ Forall (fun m =>
         desc m = d /\ valType m = GaugeValue
         /\ exists j n k,
              fst (make_and_parse_timeseries_query D ctx config q (world s)) = Ok j
              /\ Get_timeseries_num D j = Ok n
              /\ 0 <= k < n
              /\ Get_timeseries_query_value D j k = Ok (value m)
              /\ labelValues m = [Get_timeseries_query_cluster D j k;
                                  Get_timeseries_query_entity_name D j k]) ms.
Proof.
  unfold createZKMetric, query_call. unfold bind at 1.
  destruct (make_and_parse_timeseries_query D ctx config q (world s))
    as [[j|e] w].
  - destruct (Get_timeseries_num D j) as [n|e] eqn:Hn.
    + destruct (createZKMetric_loop_sound j d (Z.to_nat n) 0 (queried q w s))
        as (ms & Hch & HP).
      exists ms. split.
      * unfold bind.
        destruct (createZKMetric_loop j d (Z.to_nat n) 0 (queried q w s));
          exact Hch.
      * eapply Forall_impl; [|exact HP].
        intros m (Hd & Hg & k & Hk & Hval & Hl).
        repeat split; auto. exists j, n, k. simpl. repeat split; auto; lia.
    + exists []. simpl. rewrite app_nil_r. auto.
  - exists []. simpl. rewrite app_nil_r. auto.
Qed.

(** X6. The edges of the series count: when the count cannot be read the
    binding fails, and when the count is zero or negative the binding
    succeeds; in both cases nothing is sent and no series is read, whatever
    the descriptor. *)
Theorem count_error_or_empty ctx config q d (s : St D) j w :
  make_and_parse_timeseries_query D ctx config q (world s) = (Ok j, w) ->
  (forall e, Get_timeseries_num D j = Err e ->
             createZKMetric ctx config q d s = Done false (queried q w s))
  /\ (forall n, Get_timeseries_num D j = Ok n -> n <= 0 ->
                createZKMetric ctx config q d s = Done true (queried q w s))
  /\ ch (queried q w s) = ch s.
Proof.
  intros Hq. split; [|split; [|reflexivity]].
  - intros e He. eapply createZKMetric_num_fails; eauto.
  - intros n Hn Hle. unfold createZKMetric, query_call. unfold bind at 1.
    rewrite Hq, Hn. replace (Z.to_nat n) with 0%nat by lia. reflexivity.
Qed.

Lemma createZKMetric_loop_panics (j : Json D) (d : Desc) :
  List.length (variableLabels d) <> 2%nat ->
  forall n i k (s : St D),
    (k < n)%nat ->
    is_ok (Get_timeseries_query_value D j (i + Z.of_nat k)) = true ->
    createZKMetric_loop j d n i s = Panic s.
Proof.
  intros Hd. induction n as [|n IH]; intros i k s Hk Hok; [lia|].
  simpl. destruct (Get_timeseries_query_value D j i) as [v|e] eqn:Hv.
  - apply bind_panic. apply must_new_const_metric_panics. simpl. congruence.
  - destruct k as [|k].
    + simpl in Hok. rewrite Z.add_0_r, Hv in Hok. discriminate.
    + apply (IH (i + 1) k); [lia|].
      replace (i + 1 + Z.of_nat k) with (i + Z.of_nat (S k)) by lia. exact Hok.
Qed.

(** X7. A descriptor that does not declare exactly two labels makes
    [createZKMetric] panic as soon as the value of a series is read: nothing
    has been sent by then, and the loop of [Scrape] panics with it, the
    bindings after it never being attempted. *)
Theorem wrong_label_count_panics ctx config q d rest a b (s : St D) j n w k :
  List.length (variableLabels d) <> 2%nat ->
  make_and_parse_timeseries_query D ctx config q (world s) = (Ok j, w) ->
  Get_timeseries_num D j = Ok n ->
  0 <= k < n ->
  is_ok (Get_timeseries_query_value D j k) = true ->
  createZKMetric ctx config q d s = Panic (queried q w s)
  /\ ch (queried q w s) = ch s
  /\ Scrape_loop ctx config (mkRelation q d :: rest) a b s = Panic (queried q w s).
Proof.
  intros Hd Hq Hn Hk Hok.
  assert (Hrun : createZKMetric ctx config q d s = Panic (queried q w s)).
  { unfold createZKMetric, query_call. unfold bind at 1. rewrite Hq, Hn.
    apply bind_panic.
    apply (createZKMetric_loop_panics j d Hd (Z.to_nat n) 0 (Z.to_nat k));
      [lia|].
    rewrite Z.add_0_l, Z2Nat.id by lia. exact Hok. }
  split; [exact Hrun|]. split; [reflexivity|].
  simpl. apply bind_panic. exact Hrun.
Qed.
End BindingEdges.

(** ** The whole scrape *)

Section ScrapeEdges.
Import Collector.
Context {D : Deps}.



Lemma Scrape_loop_all_fail ctx config :
  (forall q w, exists e w',
      make_and_parse_timeseries_query D ctx config q w = (Err e, w')) ->
  forall rels a b (s : St D),
  exists s', Scrape_loop ctx config rels a b s
             = Done (a, b + Z.of_nat (List.length rels)) s'
             /\ ch s' = ch s
             /\ issued s' = issued s ++ map Query rels
             /\ logs s' = logs s.
Proof.
  intros Hdown. induction rels as [|rel rest IH]; intros a b s.
  - exists s. simpl. rewrite Z.add_0_r, app_nil_r. auto.
  - destruct (Hdown (Query rel) (world s)) as (e & w & Hq).
    rewrite (Scrape_loop_failed_binding ctx config rel rest a b s e w Hq).
    destruct (IH a (b + 1) (queried (Query rel) w s))
      as (s' & Hloop & Hch & Hiss & Hlog).
    exists s'. rewrite Hloop. simpl List.length. repeat split; auto.
    + f_equal. f_equal. lia.
    + rewrite Hiss. simpl. now rewrite <- app_assoc.
Qed.

(** X9. A total outage: if the query client fails every query, [Scrape]
    over any table, whatever its descriptors, still attempts every binding
    in order, sends nothing, logs the tally (N, 0, N) and returns nil. *)
Theorem Scrape_survives_total_outage ctx config (rels : list relation) (s : St D) :
  (forall q w, exists e w',
      make_and_parse_timeseries_query D ctx config q w = (Err e, w')) ->
  exists s1,
    Scrape_table rels ctx config s
    = Done None (logged (tally_entry tally_fmt 0 (Z.of_nat (List.length rels))) s1)
    /\ ch s1 = ch s
    /\ issued s1 = issued s ++ map Query rels
    /\ logs s1 = logs s ++ [start_entry].
Proof.
  intros Hdown.
  destruct (Scrape_loop_all_fail ctx config Hdown rels 0 0 (logged start_entry s))
    as (s1 & Hloop & Hch & Hiss & Hlog).
  exists s1. split; [|auto].
  apply (proj1 (Scrape_table_run ctx config rels s s1 _ _ Hloop)).
Qed.

(** X10. The two revisions of the module agree: over the same table, in
    the same state, their [Scrape] make the same queries, send the same
    samples and return the same result; only the wording of the tally line
    differs.  If one panics, so does the other, in the same state. *)
Theorem revisions_agree ctx config (rels : list relation) (s : St D) :
  (exists sq eq s1,
      Scrape_table rels ctx config s
      = Done None (logged (tally_entry tally_fmt sq eq) s1)
      /\ Rev1.Scrape_table rels ctx config s
         = Done None (logged (tally_entry tally_fmt_rev1 sq eq) s1))
  \/ (exists s1,
         Scrape_table rels ctx config s = Panic s1
         /\ Rev1.Scrape_table rels ctx config s = Panic s1).
Proof.
  destruct (Scrape_loop ctx config rels 0 0 (logged start_entry s))
    as [[sq eq] s1|s1] eqn:Hloop.
  - left. exists sq, eq, s1. now apply Scrape_table_run.
  - right. exists s1. split.
    + unfold Scrape_table. erewrite bind_done by reflexivity.
      now apply bind_panic.
    + unfold Rev1.Scrape_table. erewrite bind_done by reflexivity.
      apply bind_panic. rewrite Scrape_loop_same. exact Hloop.
Qed.
End ScrapeEdges.

Lemma count_error_or_empty_witness :
  Collector.createZKMetric (D := Trace.countDeps (Err "no items")) 100%nat
    Demo.demo_config Collector.ZK_CURRENT_XID Trace.one_label_desc
    (Demo.start (Trace.countDeps (Err "no items")) 0%nat)
  = Done false (Collector.queried (D := Trace.countDeps (Err "no items"))
                  Collector.ZK_CURRENT_XID 1%nat
                  (Demo.start (Trace.countDeps (Err "no items")) 0%nat))
  /\ Collector.createZKMetric (D := Trace.countDeps (Ok (-3))) 100%nat
       Demo.demo_config Collector.ZK_CURRENT_XID Trace.one_label_desc
       (Demo.start (Trace.countDeps (Ok (-3))) 0%nat)
     = Done true (Collector.queried (D := Trace.countDeps (Ok (-3)))
                    Collector.ZK_CURRENT_XID 1%nat
                    (Demo.start (Trace.countDeps (Ok (-3))) 0%nat)).
Proof.
  split.
  - destruct (count_error_or_empty (D := Trace.countDeps (Err "no items"))
                100%nat Demo.demo_config Collector.ZK_CURRENT_XID
                Trace.one_label_desc
                (Demo.start (Trace.countDeps (Err "no items")) 0%nat) tt 1%nat
                eq_refl) as (Herr & _ & _).
    apply (Herr "no items"). reflexivity.
  - destruct (count_error_or_empty (D := Trace.countDeps (Ok (-3)))
                100%nat Demo.demo_config Collector.ZK_CURRENT_XID
                Trace.one_label_desc
                (Demo.start (Trace.countDeps (Ok (-3))) 0%nat) tt 1%nat
                eq_refl) as (_ & Hneg & _).
    apply (Hneg (-3)); [reflexivity|lia].
Defined.

Lemma wrong_label_count_panics_witness :
  List.length (variableLabels Trace.one_label_desc) <> 2%nat
  /\ Collector.Scrape_table (D := Trace.countDeps (Ok 2))
       [Collector.mkRelation Collector.ZK_CURRENT_XID Trace.one_label_desc]
       100%nat Demo.demo_config (Demo.start (Trace.countDeps (Ok 2)) 0%nat)
     = Panic (Collector.queried (D := Trace.countDeps (Ok 2))
                Collector.ZK_CURRENT_XID 1%nat
                (Collector.logged Collector.start_entry
                   (Demo.start (Trace.countDeps (Ok 2)) 0%nat))).
Proof.
  split; [discriminate|].
  destruct (wrong_label_count_panics (D := Trace.countDeps (Ok 2))
              100%nat Demo.demo_config Collector.ZK_CURRENT_XID
              Trace.one_label_desc [] 0 0
              (Collector.logged Collector.start_entry
                 (Demo.start (Trace.countDeps (Ok 2)) 0%nat))
              tt 2 1%nat 0
              ltac:(discriminate) eq_refl eq_refl ltac:(lia) eq_refl)
    as (_ & _ & Hloop).
  unfold Collector.Scrape_table. erewrite bind_done by reflexivity.
  apply bind_panic. exact Hloop.
Defined.

Lemma Scrape_survives_total_outage_witness :
  exists s1,
    Collector.Scrape (D := Trace.downDeps) 100%nat Demo.demo_config
      (Demo.start Trace.downDeps 0%nat)
    = Done None (Collector.logged
                   (Collector.tally_entry Collector.tally_fmt 0 14) s1)
    /\ Collector.ch s1 = [].
Proof.
  destruct (Scrape_survives_total_outage (D := Trace.downDeps) 100%nat
              Demo.demo_config (@Collector.zkQueryVariableRelationship Trace.downDeps)
              (Demo.start Trace.downDeps 0%nat))
    as (s1 & Hrun & Hch & _).
  - intros q w. simpl. unfold Demo.demo_query.
    destruct (Nat.leb 100 w); eexists _, _; reflexivity.
  - exists s1. split; [exact Hrun|exact Hch].
Defined.

(** ** One query of the stand-alone collector *)

Section FetchEdges.
Import Exporter.
Context {E : Http}.

(** X11. The ways [fetchMetric] fails.  A URL that [http.NewRequest]
    refuses ends the call before anything is sent; a transport error and a
    body that does not decode come back as they are, after one request.
    Whenever an error is returned the value beside it is 0.  The call never
    panics and sends at most one request. *)
Theorem fetchMetric_error_paths (zc : ZookeeperCollector) (m cl : string) (s : St E) :
  (forall err,
      NewRequest_check E (fetchMetric_url zc m cl) = Some err ->
      fetchMetric zc m cl s = Done (0%float, Some err) s)
  /\ (forall err n,
         NewRequest_check E (fetchMetric_url zc m cl) = None ->
         client_Do E (request_of zc m cl) (net s) = (Err err, n) ->
         fetchMetric zc m cl s
         = Done (0%float, Some err) (requested (request_of zc m cl) n s))
  /\ (forall resp n err,
         NewRequest_check E (fetchMetric_url zc m cl) = None ->
         client_Do E (request_of zc m cl) (net s) = (Ok resp, n) ->
         StatusCode resp = StatusOK ->
         json_Decode E (Body resp) = Err err ->
         fetchMetric zc m cl s
         = Done (0%float, Some err) (requested (request_of zc m cl) n s))
  /\ (forall v err s',
         fetchMetric zc m cl s = Done (v, Some err) s' -> v = 0%float)
  /\ exists r s',
       fetchMetric zc m cl s = Done r s'
       /\ (List.length (sent s') <= List.length (sent s) + 1)%nat.
Proof.
  split; [|split; [|split; [|split]]].
  - intros err Hc. unfold fetchMetric, NewRequest. now rewrite Hc.
  - intros err n Hc Hdo. unfold fetchMetric, NewRequest. rewrite Hc.
    unfold bind, Do, SetBasicAuth. simpl. fold (request_of zc m cl).
    now rewrite Hdo.
  - intros resp n err Hc Hdo Hst Hdec. unfold fetchMetric, NewRequest. rewrite Hc.
    unfold bind, Do, SetBasicAuth. simpl. fold (request_of zc m cl).
    rewrite Hdo, Hst, Z.eqb_refl. simpl. now rewrite Hdec.
  - intros v err s'. unfold fetchMetric, NewRequest.
    destruct (NewRequest_check E (fetchMetric_url zc m cl));
      [intros H; now injection H|].
    unfold bind, Do.
    destruct (client_Do E _ (net s)) as [[resp|e] n];
      [|intros H; now injection H].
    destruct (negb (StatusCode resp =? StatusOK)%Z); [intros H; now injection H|].
    destruct (json_Decode E (Body resp)) as [tsResp|e];
      [|intros H; now injection H].
    destruct (sum_last_points tsResp) as [sum count].
    destruct (count =? 0)%Z; discriminate.
  - unfold fetchMetric, NewRequest.
    destruct (NewRequest_check E (fetchMetric_url zc m cl)).
    + eexists _, _. split; [reflexivity|]. lia.
    + unfold bind, Do.
      destruct (client_Do E _ (net s)) as [[resp|e] n].
      * destruct (negb (StatusCode resp =? StatusOK)%Z).
        -- eexists _, _. split; [reflexivity|]. simpl. rewrite length_app. simpl. lia.
        -- destruct (json_Decode E (Body resp)) as [tsResp|e].
           ++ destruct (sum_last_points tsResp) as [sum count].
              destruct (count =? 0)%Z; eexists _, _;
                (split; [reflexivity|]); simpl; rewrite length_app; simpl; lia.
           ++ eexists _, _. split; [reflexivity|].
              simpl. rewrite length_app. simpl. lia.
      * eexists _, _. split; [reflexivity|]. simpl. rewrite length_app. simpl. lia.
Qed.

Lemma selected_values_flat (tsResp : timeSeriesAPIResponse) :
  selected_values tsResp
  = flat_map (fun ts => match Data ts with
                        | [] => []
                        | _ :: _ => [Value (last (Data ts) zeroPoint)]
                        end) (all_series tsResp).
Proof.
  unfold selected_values, all_series.
  induction (Items tsResp) as [|it items IH]; simpl; [reflexivity|].
  now rewrite flat_map_app, IH.
Qed.

Lemma flat_map_filter_has_data (l : list Series) :
  flat_map (fun ts => match Data ts with
                      | [] => []
                      | _ :: _ => [Value (last (Data ts) zeroPoint)]
                      end) (filter Trace.has_data l)
  = flat_map (fun ts => match Data ts with
                        | [] => []
                        | _ :: _ => [Value (last (Data ts) zeroPoint)]
                        end) l.
Proof.
  induction l as [|ts l IH]; simpl; [reflexivity|].
  unfold Trace.has_data at 1. destruct (Data ts) eqn:Hd; simpl.
  - exact IH.
  - rewrite Hd. simpl. now rewrite IH.
Qed.

Lemma selected_count (l : list Series) :
  List.length (flat_map (fun ts => match Data ts with
                                   | [] => []
                                   | _ :: _ => [Value (last (Data ts) zeroPoint)]
                                   end) l)
  = List.length (filter Trace.has_data l).
Proof.
  induction l as [|ts l IH]; simpl; [reflexivity|].
  unfold Trace.has_data at 1. destruct (Data ts); simpl; now rewrite IH.
Qed.

(** X12. The two loops of [fetchMetric] only see the ordered list of the
    series that have data: how the series are grouped into items, and the
    series without data points, change neither the sum nor the count.  The
    count is the number of series with data, and a count of zero comes with
    a sum of zero, so the early return on a zero count changes nothing. *)
Theorem sum_ignores_grouping_and_empty_series (tsResp : timeSeriesAPIResponse) :
  sum_last_points tsResp
  = sum_last_points
      (mkResponse [mkItem (filter Trace.has_data (all_series tsResp))])
  /\ snd (sum_last_points tsResp)
     = Z.of_nat (List.length (filter Trace.has_data (all_series tsResp)))
  /\ (snd (sum_last_points tsResp) = 0 -> fst (sum_last_points tsResp) = 0%float).
Proof.
  assert (Hone : forall l, all_series (mkResponse [mkItem l]) = l)
    by (intros l; unfold all_series; simpl; apply app_nil_r).
  rewrite !sum_last_points_spec, !selected_values_flat, Hone.
  rewrite flat_map_filter_has_data. split; [reflexivity|]. split.
  - simpl. now rewrite selected_count.
  - simpl. intros H.
    destruct (flat_map _ (all_series tsResp)); [reflexivity|simpl in H; lia].
Qed.
End FetchEdges.

(** ** A whole [Collect] *)

Section CollectEdges.
Import Exporter.
Context {E : Http}.

Lemma ch_block_state d lvs fmt r (s : St E) :
  ch (block_state d lvs fmt r s) = ch s ++ Trace.sample_if d lvs r.
Proof.
  destruct r as [v [err|]]; simpl; [|reflexivity].
  destruct fmt; simpl; now rewrite app_nil_r.
Qed.

Lemma logs_block_state d lvs f r (s : St E) :
  logs (block_state d lvs (Some f) r s) = logs s ++ Trace.log_if f r.
Proof.
  destruct r as [v [err|]]; simpl; [reflexivity|now rewrite app_nil_r].
Qed.

Lemma logs_block_state_silent d lvs r (s : St E) :
  logs (block_state d lvs None r s) = logs s.
Proof. destruct r as [v [err|]]; reflexivity. Qed.

Lemma sent_block_state d lvs fmt r (s : St E) :
  sent (block_state d lvs fmt r s) = sent s /\ net (block_state d lvs fmt r s) = net s.
Proof. destruct r as [v [err|]]; [destruct fmt|]; split; reflexivity. Qed.

(** X13. [Collect] on a collector made by [NewZookeeperCollector] never
    panics.  It sends at most four samples, in the fixed order alerts rate,
    alerts rate across clusters, total alerts rate across clusters, canary
    duration, each a gauge with the label value [DemoCluster] or none; each
    of the first three queries leaves exactly one trace, its sample or a
    line in the log; the fourth leaves its sample or nothing. *)
Theorem Collect_outcome a b c d e (s : St E) :
  let zc := NewZookeeperCollector a b c d e in
  exists r1 r2 r3 r4 s1 s',
    fetchMetric zc "alerts_rate" "DemoCluster" s = Done r1 s1
    /\ Collect zc s = Done tt s'
    /\ ch s' = ch s
               ++ Trace.sample_if (alertsRate zc) ["DemoCluster"] r1
               ++ Trace.sample_if (alertsRateAcrossClusters zc) [] r2
               ++ Trace.sample_if (totalAlertsRateAcrossClusters zc) [] r3
               ++ Trace.sample_if (canaryDuration zc) ["DemoCluster"] r4
    /\ logs s' = logs s
                 ++ Trace.log_if Trace.fmt_alerts_rate r1
                 ++ Trace.log_if Trace.fmt_across_clusters r2
                 ++ Trace.log_if Trace.fmt_total_across_clusters r3.
Proof.
  intros zc.
  destruct (fetchMetric_frame zc "alerts_rate" "DemoCluster" s)
    as (r1 & s1 & H1 & C1 & L1).
  destruct (fetchMetric_frame zc "alerts_rate_across_clusters" ""
              (block_state (alertsRate zc) ["DemoCluster"]
                 (Some Trace.fmt_alerts_rate) r1 s1))
    as (r2 & s2 & H2 & C2 & L2).
  destruct (fetchMetric_frame zc "total_alerts_rate_across_clusters" ""
              (block_state (alertsRateAcrossClusters zc) []
                 (Some Trace.fmt_across_clusters) r2 s2))
    as (r3 & s3 & H3 & C3 & L3).
  destruct (fetchMetric_frame zc "canary_duration" "DemoCluster"
              (block_state (totalAlertsRateAcrossClusters zc) []
                 (Some Trace.fmt_total_across_clusters) r3 s3))
    as (r4 & s4 & H4 & C4 & L4).
  exists r1, r2, r3, r4, s1. eexists.
  split; [exact H1|].
  split; [exact (Collect_steps a b c d e s s1 s2 s3 s4 r1 r2 r3 r4 H1 H2 H3 H4)|].
  split.
  - rewrite ch_block_state, C4, ch_block_state, C3, ch_block_state, C2,
      ch_block_state, C1. now rewrite <- !app_assoc.
  - rewrite logs_block_state_silent, L4, logs_block_state, L3, logs_block_state,
      L2, logs_block_state, L1. now rewrite <- !app_assoc.
Qed.

(** X14. When [http.NewRequest] accepts its URLs, [Collect] sends exactly
    four requests, in the same order whatever the answers are, failures
    included: each is a GET with the credentials of the collector, and the
    cluster scope [DemoCluster] is in the first and the last only. *)
Theorem Collect_makes_four_requests a b c d e (s : St E) :
  accepts_all E ->
  sent (final (Collect (NewZookeeperCollector a b c d e) s))
  = sent s ++ Trace.collect_requests (NewZookeeperCollector a b c d e).
Proof.
  intros Hacc. set (zc := NewZookeeperCollector a b c d e).
  destruct (fetchMetric_frame zc "alerts_rate" "DemoCluster" s)
    as (r1 & s1 & H1 & _).
  destruct (fetchMetric_frame zc "alerts_rate_across_clusters" ""
              (block_state (alertsRate zc) ["DemoCluster"]
                 (Some Trace.fmt_alerts_rate) r1 s1))
    as (r2 & s2 & H2 & _).
  destruct (fetchMetric_frame zc "total_alerts_rate_across_clusters" ""
              (block_state (alertsRateAcrossClusters zc) []
                 (Some Trace.fmt_across_clusters) r2 s2))
    as (r3 & s3 & H3 & _).
  destruct (fetchMetric_frame zc "canary_duration" "DemoCluster"
              (block_state (totalAlertsRateAcrossClusters zc) []
                 (Some Trace.fmt_total_across_clusters) r3 s3))
    as (r4 & s4 & H4 & _).
  unfold zc in *. clear zc.
  rewrite (Collect_steps a b c d e s s1 s2 s3 s4 r1 r2 r3 r4 H1 H2 H3 H4).
  set (zc := NewZookeeperCollector a b c d e) in *.
  pose proof (fetchMetric_sends zc "alerts_rate" "DemoCluster" s (Hacc _)) as S1.
  pose proof (fetchMetric_sends zc "alerts_rate_across_clusters" ""
                (block_state (alertsRate zc) ["DemoCluster"]
                   (Some Trace.fmt_alerts_rate) r1 s1) (Hacc _)) as S2.
  pose proof (fetchMetric_sends zc "total_alerts_rate_across_clusters" ""
                (block_state (alertsRateAcrossClusters zc) []
                   (Some Trace.fmt_across_clusters) r2 s2) (Hacc _)) as S3.
  pose proof (fetchMetric_sends zc "canary_duration" "DemoCluster"
                (block_state (totalAlertsRateAcrossClusters zc) []
                   (Some Trace.fmt_total_across_clusters) r3 s3) (Hacc _)) as S4.
  rewrite H1 in S1. simpl final in S1.
  rewrite H2 in S2. simpl final in S2.
  rewrite H3 in S3. simpl final in S3.
  rewrite H4 in S4. simpl final in S4.
  rewrite (proj1 (sent_block_state _ _ _ _ _)) in S2.
  rewrite (proj1 (sent_block_state _ _ _ _ _)) in S3.
  rewrite (proj1 (sent_block_state _ _ _ _ _)) in S4.
  simpl final. rewrite (proj1 (sent_block_state _ _ _ _ _)).
  rewrite S4, S3, S2, S1. unfold Trace.collect_requests.
  now rewrite <- !app_assoc.
Qed.

(** X15. Ten of the fourteen descriptors that [Describe] declares are
    never used: no sample of [Collect], under any behaviour of the network,
    carries one of them. *)
Theorem Collect_never_uses_ten_descriptors a b c d e (s : St E) :
  let zc := NewZookeeperCollector a b c d e in
  List.length (Trace.unused_descriptors zc) = 10%nat
  /\ incl (Trace.unused_descriptors zc) (Describe zc [])
  /\ exists ms,
       ch (final (Collect zc s)) = ch s ++ ms
       /\ Forall (fun m => ~ In (desc m) (Trace.unused_descriptors zc)) ms.
Proof.
  intros zc. split; [reflexivity|]. split.
  - intros x Hx. simpl in Hx. simpl.
    repeat (destruct Hx as [Hx|Hx]; [subst x; auto 20|]). contradiction.
  - destruct (Collect_emits zc s) as (ms & Hch & HP & _).
    exists ms. split; [exact Hch|].
    eapply Forall_impl; [|exact HP].
    intros m (_ & _ & Hshape) Hin.
    assert (Hd : desc m = alertsRate zc \/ desc m = canaryDuration zc
                 \/ desc m = alertsRateAcrossClusters zc
                 \/ desc m = totalAlertsRateAcrossClusters zc).
    { destruct Hshape as [[[H|H] _]|[H _]]; auto.
      simpl in H. destruct H as [H|[H|[]]]; auto. }
    destruct Hd as [Hd|[Hd|[Hd|Hd]]]; rewrite Hd in Hin; simpl in Hin;
      repeat (destruct Hin as [Hin|Hin]; [discriminate Hin|]); exact Hin.
Qed.

(** X16. When every query is answered by the same status other than 200,
    [Collect] sends nothing and logs three lines, for the first three
    queries, each with the error [non-200 response: <status>]; the failure
    of the fourth query, the canary duration, is not logged. *)
Theorem failed_queries_are_logged_except_canary a b c d e (status : Z) (s : St E) :
  accepts_all E ->
  status <> StatusOK ->
  answers_all E (fun resp => StatusCode resp = status) ->
  exists s',
    Collect (NewZookeeperCollector a b c d e) s = Done tt s'
    /\ ch s' = ch s
    /\ logs s'
       = logs s
         ++ [ mkLog Trace.fmt_alerts_rate
                ("non-200 response: " ++ itoa status)%string;
              mkLog Trace.fmt_across_clusters
                ("non-200 response: " ++ itoa status)%string;
              mkLog Trace.fmt_total_across_clusters
                ("non-200 response: " ++ itoa status)%string ].
Proof.
  intros Hacc Hst Hans. set (zc := NewZookeeperCollector a b c d e).
  assert (Hf : forall m cl (s0 : St E),
             exists s1, fetchMetric zc m cl s0
                        = Done (0%float,
                                Some ("non-200 response: " ++ itoa status)%string) s1
                        /\ ch s1 = ch s0 /\ logs s1 = logs s0).
  { intros m cl s0.
    destruct (Hans (request_of zc m cl) (net s0)) as (resp & n & Hdo & Hs).
    eexists. split.
    - rewrite (fetchMetric_non200 zc m cl s0 resp n (Hacc _) Hdo ltac:(congruence)).
      now rewrite Hs.
    - split; reflexivity. }
  destruct (Hf "alerts_rate" "DemoCluster" s) as (s1 & H1 & C1 & L1).
  destruct (Hf "alerts_rate_across_clusters" ""
              (block_state (alertsRate zc) ["DemoCluster"]
                 (Some Trace.fmt_alerts_rate)
                 (0%float, Some ("non-200 response: " ++ itoa status)%string) s1))
    as (s2 & H2 & C2 & L2).
  destruct (Hf "total_alerts_rate_across_clusters" ""
              (block_state (alertsRateAcrossClusters zc) []
                 (Some Trace.fmt_across_clusters)
                 (0%float, Some ("non-200 response: " ++ itoa status)%string) s2))
    as (s3 & H3 & C3 & L3).
  destruct (Hf "canary_duration" "DemoCluster"
              (block_state (totalAlertsRateAcrossClusters zc) []
                 (Some Trace.fmt_total_across_clusters)
                 (0%float, Some ("non-200 response: " ++ itoa status)%string) s3))
    as (s4 & H4 & C4 & L4).
  eexists.
  split; [exact (Collect_steps a b c d e s s1 s2 s3 s4 _ _ _ _ H1 H2 H3 H4)|].
  split.
  - simpl in *. congruence.
  - simpl in *. rewrite L4, L3, L2, L1. now rewrite <- !app_assoc.
Qed.
End CollectEdges.

Lemma fetchMetric_error_paths_witness :
  Exporter.fetchMetric (E := Trace.unreachableHttp) Demo.demo_zc
    "alerts_rate" "DemoCluster" (Demo.begin Trace.unreachableHttp 0%nat)
  = Done (0%float, Some "dial tcp: connection refused")
         (Exporter.requested (E := Trace.unreachableHttp)
            (Exporter.request_of Demo.demo_zc "alerts_rate" "DemoCluster") 1%nat
            (Demo.begin Trace.unreachableHttp 0%nat)).
Proof.
  destruct (fetchMetric_error_paths (E := Trace.unreachableHttp) Demo.demo_zc
              "alerts_rate" "DemoCluster" (Demo.begin Trace.unreachableHttp 0%nat))
    as (_ & Htransport & _).
  apply Htransport; reflexivity.
Defined.

Lemma Collect_makes_four_requests_witness :
  Exporter.accepts_all Demo.failingHttp
  /\ map Exporter.URL
       (Exporter.sent (final (Exporter.Collect (E := Demo.failingHttp) Demo.demo_zc
                                (Demo.begin Demo.failingHttp 0%nat))))
     = [ "http://cm.example:7180/api/v19/timeseries?query=alerts_rate%5BclusterName=DemoCluster%5D";
         "http://cm.example:7180/api/v19/timeseries?query=alerts_rate_across_clusters";
         "http://cm.example:7180/api/v19/timeseries?query=total_alerts_rate_across_clusters";
         "http://cm.example:7180/api/v19/timeseries?query=canary_duration%5BclusterName=DemoCluster%5D" ].
Proof.
  assert (Hacc : Exporter.accepts_all Demo.failingHttp) by (intros url; reflexivity).
  split; [exact Hacc|].
  pose proof (Collect_makes_four_requests (E := Demo.failingHttp)
                "cm.example" "7180" "v19" "admin" "secret"
                (Demo.begin Demo.failingHttp 0%nat) Hacc) as H.
  apply (f_equal (map Exporter.URL)) in H. exact H.
Defined.

Lemma failed_queries_are_logged_except_canary_witness :
  exists s',
    Exporter.Collect (E := Demo.failingHttp) Demo.demo_zc
      (Demo.begin Demo.failingHttp 0%nat) = Done tt s'
    /\ Exporter.ch s' = []
    /\ map Exporter.log_err (Exporter.logs s')
       = ["non-200 response: 500"; "non-200 response: 500"; "non-200 response: 500"].
Proof.
  destruct (failed_queries_are_logged_except_canary (E := Demo.failingHttp)
              "cm.example" "7180" "v19" "admin" "secret" 500
              (Demo.begin Demo.failingHttp 0%nat))
    as (s' & Hrun & Hch & Hlog).
  - intros url. reflexivity.
  - discriminate.
  - intros req n. eexists _, _. split; reflexivity.
  - exists s'. split; [exact Hrun|]. split; [exact Hch|].
    rewrite Hlog. reflexivity.
Defined.

(** ** Which series of a response become samples *)

Section SeriesOrder.
Import Collector.
Context {D : Deps}.



(** X18. Every sample [Scrape] sends, over any table, for any behaviour
    of the query client and the parser, also on a run that panics, carries
    the descriptor of a binding of the table; over the module's own table
    its name is the prefix of the namespace followed by one of the fourteen
    metric names. *)
Theorem Scrape_sends_declared_descriptors ctx config (rels : list relation) (s : St D) :
  (exists ms,
      ch (final (Scrape_table rels ctx config s)) = ch s ++ ms
      /\ Forall (fun m => exists rel, In rel rels /\ desc m = Metric_struct rel) ms)
  /\ exists ms,
       ch (final (Scrape ctx config s)) = ch s ++ ms
       /\ Forall (fun m => exists name,
                    In name Trace.table_metric_names
                    /\ fqName (desc m)
                       = (Trace.zk_prefix (namespace D) ++ name)%string) ms.
Proof.
  split.
  - destruct (Scrape_table_sends_ok ctx config rels s) as (ms & Hch & HP).
    exists ms. split; [exact Hch|].
    eapply Forall_impl; [|exact HP]. intros m (_ & Hin).
    apply in_map_iff in Hin. destruct Hin as (rel & Hrel & Hin). eauto.
  - destruct (Scrape_table_sends_ok ctx config
                (@zkQueryVariableRelationship D) s) as (ms & Hch & HP).
    exists ms. split; [exact Hch|].
    eapply Forall_impl; [|exact HP]. intros m (_ & Hin).
    apply (in_map fqName) in Hin. rewrite map_map in Hin.
    rewrite table_fqNames in Hin.
    apply in_map_iff in Hin. destruct Hin as (name & Hname & Hin). eauto.
Qed.
End SeriesOrder.

